(** * Price scraper bot: extraction, rounds, persistence and scheduling

    A shallow embedding of [PriceScraperBot] (main.py) and the properties
    of its scraping, persistence and scheduling engine.

    What lies outside the repository is represented as follows.
    - HTML parsing: a response body is the tree that
      [BeautifulSoup(text, 'html.parser')] builds from it.
    - CSS matching: [select_one] is defined on the simple selectors
      [.ident], [#ident], [[class*=...]] and [[id*=...]]; every other
      selector string is answered by an oracle of the environment.
    - The network, the wall clock, the write faults of the disk and the
      foreground actor's [stop()] calls are oracles of the environment.
    - The dataset file is the frame that [to_csv] wrote into it.  What
      [pd.read_csv] makes of a written cell is decided as far as it is
      certain: a missing-value marker is read as missing, printable text
      with a character that no number, boolean or marker contains is read
      as it is, a written timestamp is read as a str; any other cell is
      marked as re-typed by pandas, and nothing is said of its text. *)

From Stdlib Require Import List String Ascii ZArith Bool Lia Arith.
From Stdlib Require Import DecimalString.
Import ListNotations.
Open Scope string_scope.
Open Scope Z_scope.

#[local] Set Warnings "-register-all".

(** ** Python strings *)

Module Py.

(** [str.isspace] on the code points below 256. *)
Definition is_space (c : ascii) : bool :=
  let n := nat_of_ascii c in
  ((9 <=? n) && (n <=? 13) || (28 <=? n) && (n <=? 32)
   || (n =? 133) || (n =? 160))%nat.

Fixpoint lstrip (s : string) : string :=
  match s with
  | String c s' => if is_space c then lstrip s' else s
  | EmptyString => EmptyString
  end.

Fixpoint rstrip (s : string) : string :=
  match s with
  | String c s' =>
      match rstrip s' with
      | EmptyString => if is_space c then EmptyString else String c EmptyString
      | r => String c r
      end
  | EmptyString => EmptyString
  end.

(** [s.strip()] *)
Definition strip (s : string) : string := rstrip (lstrip s).

(** [sep.join(parts)] *)
Fixpoint join (sep : string) (parts : list string) : string :=
  match parts with
  | [] => ""
  | [p] => p
  | p :: rest => p ++ sep ++ join sep rest
  end.

(** [needle in hay] *)
Fixpoint contains (needle hay : string) : bool :=
  String.prefix needle hay
  || match hay with
     | String _ hay' => contains needle hay'
     | EmptyString => false
     end.

(** [re.findall(r"\S+", s)]: the maximal runs of non-space characters. *)
Fixpoint tokens_from (cur : string) (s : string) : list string :=
  match s with
  | EmptyString => if (cur =? "")%string then [] else [cur]
  | String c s' =>
      if is_space c
      then (if (cur =? "")%string then tokens_from "" s'
            else cur :: tokens_from "" s')
      else tokens_from (cur ++ String c "") s'
  end.

Definition tokens (s : string) : list string := tokens_from "" s.

(** [str(n)] for an int. *)
Definition str_int (n : Z) : string := NilZero.string_of_int (Z.to_int n).

(** A string is truthy when it is not empty. *)
Definition truthy (s : string) : bool := negb (s =? "")%string.

Definition dquote : string := String (ascii_of_nat 34) "".
Definition newline : string := String (ascii_of_nat 10) "".

End Py.

(** ** Exceptions *)

Inductive exn : Type :=
| RequestException (detail : string)        (* requests: transport failure *)
| HTTPError (status : Z) (detail : string)  (* requests: raise_for_status *)
| SelectorSyntaxError (detail : string)     (* soupsieve *)
| ValueError (msg : string)
| FileNotFoundError
| PermissionError
| EmptyDataError                            (* pandas *)
| ParserError (detail : string)             (* pandas *)
| OSError (detail : string).

(** [str(e)], as interpolated in the log lines. *)
Definition str_exn (e : exn) : string :=
  match e with
  | RequestException d => d
  | HTTPError _ d => d
  | SelectorSyntaxError d => d
  | ValueError m => m
  | FileNotFoundError => "[Errno 2] No such file or directory"
  | PermissionError => "[Errno 13] Permission denied"
  | EmptyDataError => "No columns to parse from file"
  | ParserError d => d
  | OSError d => d
  end.

Definition is_FileNotFoundError (e : exn) : bool :=
  match e with FileNotFoundError => true | _ => false end.

(** ** Documents (bs4) *)

Module Soup.

(** A text node, a string that is not text (a comment, the content of a
    script or style element) or a tag. *)
Inductive node : Type :=
| NavigableString (s : string)
| Comment (s : string)
| Tag (name : string) (attrs : list (string * string)) (contents : list node).

(** The parsed document: the contents of the [BeautifulSoup] object. *)
Definition soup := list node.

(** A node followed by its descendants, in document order. *)
Fixpoint subtree (n : node) : list node :=
  match n with
  | Tag _ _ cs => n :: flat_map subtree cs
  | _ => [n]
  end.

(** [tag.descendants] *)
Definition descendants (n : node) : list node :=
  match n with
  | Tag _ _ cs => flat_map subtree cs
  | _ => []
  end.

(** [tag._all_strings(strip)]: the text nodes below the tag (comments are
    not text); with [strip] each one is stripped on its own and dropped
    when nothing is left. *)
Definition all_strings (strip : bool) (n : node) : list string :=
  flat_map
    (fun d =>
       match d with
       | NavigableString s =>
           if strip
           then (let s' := Py.strip s in
                 if (s' =? "")%string then [] else [s'])
           else [s]
       | _ => []
       end)
    (descendants n).

(** [tag.get_text(strip=...)], with the default empty separator. *)
Definition get_text (strip : bool) (n : node) : string :=
  Py.join "" (all_strings strip n).

Fixpoint get_attr (a : string) (attrs : list (string * string))
  : option string :=
  match attrs with
  | [] => None
  | (k, v) :: rest => if (k =? a)%string then Some v else get_attr a rest
  end.

(** bs4 keeps [class] as the list of its whitespace-separated tokens. *)
Definition classes (attrs : list (string * string)) : list string :=
  match get_attr "class" attrs with
  | Some v => Py.tokens v
  | None => []
  end.

Definition mem (x : string) (l : list string) : bool :=
  existsb (String.eqb x) l.

(** The selectors whose matching is modelled. *)
Inductive simple_selector : Type :=
| ClassSel (c : string)            (* .c *)
| IdSel (i : string)               (* #i *)
| ClassContains (v : string)       (* [class*="v"] *)
| IdContains (v : string).         (* [id*="v"] *)

Definition matches (q : simple_selector) (n : node) : bool :=
  match n with
  | Tag _ attrs _ =>
      match q with
      | ClassSel c => mem c (classes attrs)
      | IdSel i =>
          match get_attr "id" attrs with
          | Some v => (v =? i)%string
          | None => false
          end
      | ClassContains v =>
          match get_attr "class" attrs with
          | Some _ => Py.contains v (Py.join " " (classes attrs))
          | None => false
          end
      | IdContains v =>
          match get_attr "id" attrs with
          | Some w => Py.contains v w
          | None => false
          end
      end
  | _ => false
  end.

Definition is_alpha (c : ascii) : bool :=
  let n := nat_of_ascii c in
  ((65 <=? n) && (n <=? 90) || (97 <=? n) && (n <=? 122) || (n =? 95))%nat.

Definition is_ident_char (c : ascii) : bool :=
  let n := nat_of_ascii c in
  (is_alpha c || (48 <=? n) && (n <=? 57) || (n =? 45))%nat.

Fixpoint all_chars (p : ascii -> bool) (s : string) : bool :=
  match s with
  | EmptyString => true
  | String c s' => p c && all_chars p s'
  end.

(** A plain identifier: a letter or underscore, then letters, digits,
    underscores and hyphens. *)
Definition is_ident (s : string) : bool :=
  match s with
  | String c s' => is_alpha c && all_chars is_ident_char s'
  | EmptyString => false
  end.

Fixpoint strip_prefix (p s : string) : option string :=
  match p, s with
  | EmptyString, _ => Some s
  | String a p', String b s' =>
      if Ascii.eqb a b then strip_prefix p' s' else None
  | _, _ => None
  end.

Definition strip_suffix (p s : string) : option string :=
  let n := (String.length s - String.length p)%nat in
  if (String.length p <=? String.length s)%nat
     && (substring n (String.length p) s =? p)%string
  then Some (substring 0 n s) else None.

Definition parse_contains (attr : string) (s : string) : option string :=
  match strip_prefix ("[" ++ attr ++ "*=" ++ Py.dquote) s with
  | Some rest =>
      match strip_suffix (Py.dquote ++ "]") rest with
      | Some v => if is_ident v then Some v else None
      | None => None
      end
  | None => None
  end.

Definition parse_simple (s : string) : option simple_selector :=
  match s with
  | String "."%char r => if is_ident r then Some (ClassSel r) else None
  | String "#"%char r => if is_ident r then Some (IdSel r) else None
  | _ =>
      match parse_contains "class" s with
      | Some v => Some (ClassContains v)
      | None =>
          match parse_contains "id" s with
          | Some v => Some (IdContains v)
          | None => None
          end
      end
  end.

(** What a [select_one] call does: return a tag, return [None], or raise. *)
Inductive selected : Type :=
| Found (t : node)
| NotFound
| BadSelector (detail : string).

Definition first_match (q : simple_selector) (doc : soup) : selected :=
  match find (matches q) (flat_map subtree doc) with
  | Some t => Found t
  | None => NotFound
  end.

(** [soup.select_one(selector)]: the first tag in document order that the
    selector matches.  [engine] answers the selectors outside
    [simple_selector]. *)
Definition select_one (engine : string -> soup -> selected)
    (doc : soup) (selector : string) : selected :=
  match parse_simple selector with
  | Some q => first_match q doc
  | None => engine selector doc
  end.

End Soup.

(** ** Tables (pandas) *)

Definition instant := Z.

(** One dict appended to [self.data]. *)
Record Observation : Type := mkObservation {
  url : string;
  price : string;
  timestamp : instant
}.

Module Pd.

(** The cells of a frame.  [TimestampStr t] is the str that is read back
    from the text written for the datetime [t].  [Reread s] is a cell that
    began as the field [s] and has been read back, once or more, and typed
    with its column: a number, a boolean, a missing value or the str [s]
    itself, by what else the column holds.  What [to_csv] writes for it is
    pandas' rendering of that value (7 is written 7.0 once its column is a
    float column), of which the model says nothing. *)
Inductive cell : Type :=
| NaN
| Str (s : string)
| Timestamp (t : instant)
| TimestampStr (t : instant)
| Reread (s : string).

Record DataFrame : Type := mkDataFrame {
  columns : list string;
  rows : list (list cell)
}.

Definition schema : list string := ["url"; "price"; "timestamp"].

Definition record_row (o : Observation) : list cell :=
  [Str (url o); Str (price o); Timestamp (timestamp o)].

(** [pd.DataFrame(records)] for a list of dicts that all have the keys
    url, price, timestamp: the keys of the first dict give the columns,
    so an empty list gives a frame without columns. *)
Definition of_records (records : list Observation) : DataFrame :=
  match records with
  | [] => mkDataFrame [] []
  | _ => mkDataFrame schema (map record_row records)
  end.

Fixpoint lookup (c : string) (cols : list string) (row : list cell) : cell :=
  match cols, row with
  | k :: cols', v :: row' => if (k =? c)%string then v else lookup c cols' row'
  | _, _ => NaN
  end.

(** A row laid out on another column list; a column it lacks is [NaN]. *)
Definition reindex (cols new_cols : list string) (row : list cell)
  : list cell :=
  map (fun c => lookup c cols row) new_cols.

(** [pd.concat([a, b], ignore_index=True)]: the columns of [a], then the
    columns of [b] that [a] lacks; the rows of [a], then the rows of [b]. *)
Definition concat (a b : DataFrame) : DataFrame :=
  let cols :=
    (columns a
     ++ filter (fun c => negb (Soup.mem c (columns a))) (columns b))%list in
  mkDataFrame cols
    (map (reindex (columns a) cols) (rows a)
     ++ map (reindex (columns b) cols) (rows b))%list.

(** Fields that [pd.read_csv] reads as a missing value (among the default
    [na_values]); the empty field is one of them. *)
Definition na_values : list string :=
  [""; "#N/A"; "#N/A N/A"; "#NA"; "-1.#IND"; "-1.#QNAN"; "-NaN"; "-nan";
   "1.#IND"; "1.#QNAN"; "N/A"; "NA"; "NULL"; "NaN"; "n/a"; "nan"; "null"].

Definition is_na (s : string) : bool := Soup.mem s na_values.

(** Characters that occur in no number, no boolean and no missing-value
    marker. *)
Definition text_chars : string := ":$%@=?&!;|~^*()[]{}".

Fixpoint has_char (c : ascii) (s : string) : bool :=
  match s with
  | EmptyString => false
  | String d s' => Ascii.eqb c d || has_char c s'
  end.

Definition is_printable (c : ascii) : bool :=
  let n := nat_of_ascii c in ((32 <=? n) && (n <=? 126))%nat.

Fixpoint has_text_char (s : string) : bool :=
  match s with
  | EmptyString => false
  | String c s' => has_char c text_chars || has_text_char s'
  end.

(** Printable ASCII text with a character of [text_chars]: a field that
    [pd.read_csv] can only read as the str it is. *)
Definition is_plain_text (s : string) : bool :=
  Soup.all_chars is_printable s && has_text_char s.

(** What [pd.read_csv] makes of a cell that [to_csv] wrote. *)
Definition infer_cell (c : cell) : cell :=
  match c with
  | NaN => NaN
  | Str s =>
      if is_na s then NaN
      else if is_plain_text s then Str s
      else Reread s
  | Timestamp t => TimestampStr t
  | TimestampStr t => TimestampStr t
  | Reread s => Reread s
  end.

Definition reread (rs : list (list cell)) : list (list cell) :=
  map (map infer_cell) rs.

(** What [pd.read_csv] makes of the file that [to_csv] wrote for a frame:
    the same header, and every row read back cell by cell. *)
Definition infer (t : DataFrame) : DataFrame :=
  mkDataFrame (columns t) (reread (rows t)).

Fixpoint distinct (l : list string) : bool :=
  match l with
  | [] => true
  | c :: l' => negb (Soup.mem c l') && distinct l'
  end.

(** A frame that [read_csv] reads back under the header it was written
    with: there is a column, the column names are distinct and none is
    empty, and every row is as wide as the header. *)
Definition regular (t : DataFrame) : bool :=
  negb (List.length (columns t) =? 0)%nat
  && distinct (columns t)
  && negb (Soup.mem "" (columns t))
  && forallb (fun row => (List.length row =? List.length (columns t))%nat)
       (rows t).

End Pd.

(** ** The bot and its environment *)

(** The dataset file, by what [pd.read_csv] makes of it.  [Csv t] is the
    file that [to_csv] writes for the frame [t], a header line and a line
    for each row; a file of another origin is the frame of its fields,
    each a [Str].  What is read back from it is [Pd.infer t]; the header
    is read back as it is when the frame is regular ([Pd.regular]), as
    every frame is that [save_data] writes onto no file or a regular
    one. *)
Inductive file : Type :=
| Missing                      (* no such file *)
| Denied                       (* exists, cannot be opened *)
| Blank                        (* zero bytes or blank lines: no header line *)
| Garbled (detail : string)    (* text that does not tokenize as CSV *)
| Csv (t : Pd.DataFrame).      (* header line and rows, as written *)

(** The file that writing a frame leaves: it holds the frame as written,
    and is read back through [Pd.infer], not as the frame itself; a frame
    without columns has no header line to write. *)
Definition csv_file (df : Pd.DataFrame) : file :=
  match Pd.columns df with
  | [] => Blank
  | _ => Csv df
  end.

(** A response of [requests.get]; [final_url] is [response.url], the url
    that was fetched in the end, as requests writes it. *)
Record response : Type := mkResponse {
  status_code : Z;
  reason : string;
  final_url : string;
  body : Soup.soup
}.

(** What the bot does not control.  [http_get k] answers the request made
    when k requests went before it; [now k] is the wall clock once k
    requests have been made; [stop_request k] tells whether the foreground
    actor has called [stop()] since the cycle last read [self.running]
    (k counts those reads); when [write_fault k = Some (e, f)] the k-th
    [to_csv] raises [e] and leaves [f] on disk. *)
Record Env : Type := mkEnv {
  http_get : nat -> string -> string + response;
  now : nat -> instant;
  stop_request : nat -> bool;
  css_engine : string -> Soup.soup -> Soup.selected;
  write_fault : nat -> option (exn * file)
}.

Definition Target := (string * option string)%type.

Record state : Type := mkState {
  (* self *)
  sites : list Target;
  interval : Z;
  running : bool;
  thread : nat;                (* threads started on [run_bot] so far *)
  log_callback : bool;         (* is a callback installed? *)
  data : list Observation;
  (* the world *)
  console : list string;       (* what the callback has received *)
  disk : file;                 (* scraped_prices.csv *)
  requests : nat;
  reads : nat;                 (* reads of [self.running] by the cycle *)
  writes : nat;
  slept : Z                    (* seconds spent in [time.sleep] *)
}.

Definition set_sites (v : list Target) (s : state) : state :=
  mkState v (interval s) (running s) (thread s) (log_callback s) (data s)
    (console s) (disk s) (requests s) (reads s) (writes s) (slept s).

Definition set_interval (v : Z) (s : state) : state :=
  mkState (sites s) v (running s) (thread s) (log_callback s) (data s)
    (console s) (disk s) (requests s) (reads s) (writes s) (slept s).

Definition set_running (v : bool) (s : state) : state :=
  mkState (sites s) (interval s) v (thread s) (log_callback s) (data s)
    (console s) (disk s) (requests s) (reads s) (writes s) (slept s).

Definition set_thread (v : nat) (s : state) : state :=
  mkState (sites s) (interval s) (running s) v (log_callback s) (data s)
    (console s) (disk s) (requests s) (reads s) (writes s) (slept s).

Definition set_data (v : list Observation) (s : state) : state :=
  mkState (sites s) (interval s) (running s) (thread s) (log_callback s) v
    (console s) (disk s) (requests s) (reads s) (writes s) (slept s).

Definition set_console (v : list string) (s : state) : state :=
  mkState (sites s) (interval s) (running s) (thread s) (log_callback s)
    (data s) v (disk s) (requests s) (reads s) (writes s) (slept s).

Definition set_disk (v : file) (s : state) : state :=
  mkState (sites s) (interval s) (running s) (thread s) (log_callback s)
    (data s) (console s) v (requests s) (reads s) (writes s) (slept s).

Definition set_requests (v : nat) (s : state) : state :=
  mkState (sites s) (interval s) (running s) (thread s) (log_callback s)
    (data s) (console s) (disk s) v (reads s) (writes s) (slept s).

Definition set_reads (v : nat) (s : state) : state :=
  mkState (sites s) (interval s) (running s) (thread s) (log_callback s)
    (data s) (console s) (disk s) (requests s) v (writes s) (slept s).

Definition set_writes (v : nat) (s : state) : state :=
  mkState (sites s) (interval s) (running s) (thread s) (log_callback s)
    (data s) (console s) (disk s) (requests s) (reads s) v (slept s).

Definition set_slept (v : Z) (s : state) : state :=
  mkState (sites s) (interval s) (running s) (thread s) (log_callback s)
    (data s) (console s) (disk s) (requests s) (reads s) (writes s) v.

(** *** Computations that change the state and may raise *)

Inductive outcome (A : Type) : Type :=
| Returns (a : A) (s : state)
| Raises (e : exn) (s : state).

Arguments Returns {A} a s.
Arguments Raises {A} e s.

Definition M (A : Type) : Type := state -> outcome A.

Definition ret {A} (a : A) : M A := fun s => Returns a s.

Definition bind {A B} (m : M A) (k : A -> M B) : M B :=
  fun s =>
    match m s with
    | Returns a s' => k a s'
    | Raises e s' => Raises e s'
    end.

Definition raise {A} (e : exn) : M A := fun s => Raises e s.

(** [try: m  except <catches> as e: h e] *)
Definition try_except {A} (m : M A) (catches : exn -> bool) (h : exn -> M A)
  : M A :=
  fun s =>
    match m s with
    | Returns a s' => Returns a s'
    | Raises e s' => if catches e then h e s' else Raises e s'
    end.

Definition gets {A} (f : state -> A) : M A := fun s => Returns (f s) s.

Definition modify (f : state -> state) : M unit := fun s => Returns tt (f s).

Declare Scope py_scope.
Delimit Scope py_scope with py.
Notation "x <- m ;; k" := (bind m (fun x => k))
  (at level 61, m at next level, right associativity) : py_scope.
Notation "m ;; k" := (bind m (fun _ => k))
  (at level 61, right associativity) : py_scope.
Open Scope py_scope.

Definition final_state {A} (o : outcome A) : state :=
  match o with Returns _ s => s | Raises _ s => s end.

Definition raised {A} (o : outcome A) : option exn :=
  match o with Returns _ _ => None | Raises e _ => Some e end.

(** *** PriceScraperBot *)

Definition log (message : string) (s : state) : state :=
  if log_callback s
  then set_console (console s ++ [message])%list s
  else s.

Definition start (s : state) : state :=
  if negb (running s)
  then log "Bot started." (set_thread (S (thread s)) (set_running true s))
  else s.

Definition stop (s : state) : state :=
  if running s
  then log "Stopping bot..." (set_running false s)
  else s.

Definition common_selectors : list string :=
  [".price"; "#price";
   "[class*=" ++ Py.dquote ++ "price" ++ Py.dquote ++ "]";
   "[id*=" ++ Py.dquote ++ "price" ++ Py.dquote ++ "]"].

Definition not_found_with (selector : string) : exn :=
  ValueError ("Price element not found with selector '" ++ selector ++ "'").

Definition not_found_default : exn :=
  ValueError "Price element not found with default selectors".

Section Bot.

Variable env : Env.

Definition select_one := Soup.select_one (css_engine env).

(** The [for sel in common_selectors] loop of [get_price_from_url]. *)
Fixpoint try_selectors (doc : Soup.soup) (sels : list string)
  : exn + string :=
  match sels with
  | [] => inl not_found_default
  | sel :: rest =>
      match select_one doc sel with
      | Soup.Found price_tag => inr (Soup.get_text true price_tag)
      | Soup.NotFound => try_selectors doc rest
      | Soup.BadSelector d => inl (SelectorSyntaxError d)
      end
  end.

(** [get_price_from_url] from [if selector:] on, for the parsed page. *)
Definition extract (doc : Soup.soup) (selector : option string)
  : exn + string :=
  match selector with
  | Some sel =>
      if Py.truthy sel
      then match select_one doc sel with
           | Soup.Found price_tag => inr (Soup.get_text true price_tag)
           | Soup.NotFound => inl (not_found_with sel)
           | Soup.BadSelector d => inl (SelectorSyntaxError d)
           end
      else try_selectors doc common_selectors
  | None => try_selectors doc common_selectors
  end.

(** A read of [self.running] by the cycle, after the [stop()] that the
    foreground actor may have issued meanwhile. *)
Definition read_running : M bool :=
  fun s =>
    let s1 := if stop_request env (reads s) then stop s else s in
    let s2 := set_reads (S (reads s1)) s1 in
    Returns (running s2) s2.

Definition requests_get (u : string) : M response :=
  fun s =>
    let s' := set_requests (S (requests s)) s in
    match http_get env (requests s) u with
    | inl detail => Raises (RequestException detail) s'
    | inr r => Returns r s'
    end.

(** The error that [response.raise_for_status()] raises, if any. *)
Definition status_error (r : response) : option exn :=
  let code := status_code r in
  if (400 <=? code) && (code <? 500)
  then Some (HTTPError code (Py.str_int code ++ " Client Error: "
                             ++ reason r ++ " for url: " ++ final_url r))
  else if (500 <=? code) && (code <? 600)
  then Some (HTTPError code (Py.str_int code ++ " Server Error: "
                             ++ reason r ++ " for url: " ++ final_url r))
  else None.

Definition raise_for_status (r : response) : M unit :=
  match status_error r with
  | Some e => raise e
  | None => ret tt
  end.

Definition lift {A} (r : exn + A) : M A :=
  match r with
  | inl e => raise e
  | inr a => ret a
  end.

Definition get_price_from_url (u : string) (selector : option string)
  : M string :=
  response <- requests_get u ;;
  raise_for_status response ;;
  lift (extract (body response) selector).

Definition datetime_now : M instant :=
  gets (fun s => now env (requests s)).

Definition any_exception (e : exn) : bool := true.

(** The [for url, selector in self.sites] loop of [scrape_all_sites]. *)
Fixpoint scrape_loop (targets : list Target) : M unit :=
  match targets with
  | [] => ret tt
  | (u, selector) :: rest =>
      r <- read_running ;;
      if negb r then ret tt
      else
        modify (log ("Scraping " ++ u ++ " ...")) ;;
        try_except
          (p <- get_price_from_url u selector ;;
           modify (log ("Price found: " ++ p)) ;;
           t <- datetime_now ;;
           modify (fun s => set_data (data s ++ [mkObservation u p t])%list s))
          any_exception
          (fun e => modify (log ("Error scraping " ++ u ++ ": " ++ str_exn e))) ;;
        scrape_loop rest
  end.

Definition scrape_all_sites : M unit :=
  modify (set_data []) ;;
  targets <- gets sites ;;
  scrape_loop targets.

(** [pd.read_csv(filename)]: what was written is read back with every
    cell typed anew. *)
Definition read_csv : M Pd.DataFrame :=
  fun s =>
    match disk s with
    | Missing => Raises FileNotFoundError s
    | Denied => Raises PermissionError s
    | Blank => Raises EmptyDataError s
    | Garbled d => Raises (ParserError d) s
    | Csv t => Returns (Pd.infer t) s
    end.

(** [df.to_csv(filename, index=False)] *)
Definition to_csv (df : Pd.DataFrame) : M unit :=
  fun s =>
    let s' := set_writes (S (writes s)) s in
    match write_fault env (writes s) with
    | Some (e, remains) => Raises e (set_disk remains s')
    | None => Returns tt (set_disk (csv_file df) s')
    end.

Definition save_data : M unit :=
  records <- gets data ;;
  let df := Pd.of_records records in
  df <- try_except
          (df_existing <- read_csv ;;
           ret (Pd.concat df_existing df))
          is_FileNotFoundError
          (fun _ => ret df) ;;
  to_csv df ;;
  modify (log "Data saved to scraped_prices.csv").

Definition time_sleep (seconds : Z) : M unit :=
  modify (fun s => set_slept (slept s + seconds) s).

(** [for _ in range(n): if not self.running: break; time.sleep(10)] *)
Fixpoint sleep_loop (n : nat) : M unit :=
  match n with
  | O => ret tt
  | S n' =>
      r <- read_running ;;
      if negb r then ret tt
      else time_sleep 10 ;; sleep_loop n'
  end.

(** [if self.data: self.save_data() else: self.log(...)] in [run_bot]. *)
Definition persist : M unit :=
  records <- gets data ;;
  match records with
  | [] => modify (log "No data scraped this round.")
  | _ => save_data
  end.

(** [for _ in range(self.interval * 6): ...] *)
Definition sleep_interval : M unit :=
  minutes <- gets interval ;;
  sleep_loop (Z.to_nat (minutes * 6)).

(** The body of the [while self.running] loop of [run_bot]. *)
Definition round : M unit :=
  modify (log "Starting scraping round...") ;;
  scrape_all_sites ;;
  persist ;;
  minutes <- gets interval ;;
  modify (log ("Sleeping for " ++ Py.str_int minutes ++ " minutes..."
               ++ Py.newline)) ;;
  sleep_interval.

(** [run_bot]; [None] when [fuel] rounds did not reach the end of the
    loop. *)
Fixpoint run_bot (fuel : nat) (s : state) : option (outcome unit) :=
  match fuel with
  | O => None
  | S fuel' =>
      match read_running s with
      | Returns true s1 =>
          match round s1 with
          | Returns _ s2 => run_bot fuel' s2
          | Raises e s2 => Some (Raises e s2)
          end
      | Returns false s1 => Some (Returns tt (log "Bot stopped." s1))
      | Raises e s1 => Some (Raises e s1)
      end
  end.

End Bot.

(** The rest of [run_bot] from the inter-round sleep on. *)
Definition resume_from_sleep (env : Env) (fuel : nat) (s : state)
  : option (outcome unit) :=
  match sleep_interval env s with
  | Returns _ s' => run_bot env fuel s'
  | Raises e s' => Some (Raises e s')
  end.

(** ** Reference descriptions used by the statements *)

(** The text below a tag, trimmed as a whole. *)
Definition trimmed_text (t : Soup.node) : string :=
  Py.strip (Soup.get_text false t).

(** The default selectors, by what they ask of a tag. *)
Definition default_queries : list Soup.simple_selector :=
  [Soup.ClassSel "price"; Soup.IdSel "price";
   Soup.ClassContains "price"; Soup.IdContains "price"].

(** The first tag in document order matched by the first query of the list
    that matches anything. *)
Fixpoint first_default (doc : Soup.soup) (qs : list Soup.simple_selector)
  : option Soup.node :=
  match qs with
  | [] => None
  | q :: rest =>
      match find (Soup.matches q) (flat_map Soup.subtree doc) with
      | Some t => Some t
      | None => first_default doc rest
      end
  end.


(** What fetching a target and extracting its price yields when [k]
    requests went before. *)
Definition outcome_of (env : Env) (k : nat) (t : Target) : exn + string :=
  match http_get env k (fst t) with
  | inl detail => inl (RequestException detail)
  | inr r =>
      match status_error r with
      | Some e => inl e
      | None => extract env (body r) (snd t)
      end
  end.

(** The entry a target contributes to the round's result: one
    observation when it succeeds, nothing when it fails. *)
Definition target_obs (env : Env) (k : nat) (t : Target)
  : list Observation :=
  match outcome_of env k t with
  | inr p => [mkObservation (fst t) p (now env (S k))]
  | inl _ => []
  end.

(** The two lines a target contributes to the log. *)
Definition target_lines (env : Env) (k : nat) (t : Target) : list string :=
  ["Scraping " ++ fst t ++ " ...";
   match outcome_of env k t with
   | inr p => "Price found: " ++ p
   | inl e => "Error scraping " ++ fst t ++ ": " ++ str_exn e
   end].

(** The result of a round over [targets] that no stop interrupts. *)
Fixpoint round_result (env : Env) (k : nat) (targets : list Target)
  : list Observation :=
  match targets with
  | [] => []
  | t :: rest => (target_obs env k t ++ round_result env (S k) rest)%list
  end.

Fixpoint round_lines (env : Env) (k : nat) (targets : list Target)
  : list string :=
  match targets with
  | [] => []
  | t :: rest => (target_lines env k t ++ round_lines env (S k) rest)%list
  end.

(** The result of a round that starts running with [k] requests and [r]
    reads of the flag behind it: the targets before the first read that
    sees a stop. *)
Fixpoint collect (env : Env) (k r : nat) (targets : list Target)
  : list Observation :=
  match targets with
  | [] => []
  | t :: rest =>
      if stop_request env r then []
      else (target_obs env k t ++ collect env (S k) (S r) rest)%list
  end.

(** The file that a persist of [records] leaves in the place of [f] when
    it returns: [f] itself for an empty buffer; otherwise the frame of the
    records, after what is read back from [f] when there is a file. *)
Definition file_after_save (f : file) (records : list Observation) : file :=
  match records with
  | [] => f
  | _ =>
      match f with
      | Missing => csv_file (Pd.of_records records)
      | Csv t => csv_file (Pd.concat (Pd.infer t) (Pd.of_records records))
      | _ => f
      end
  end.

Definition row_count (f : file) : nat :=
  match f with
  | Csv t => List.length (Pd.rows t)
  | _ => 0%nat
  end.

(** A file that [save_data] can build on: none, or the file of a regular
    frame. *)
Definition readable (f : file) : bool :=
  match f with
  | Missing => true
  | Csv t => Pd.regular t
  | _ => false
  end.

(** The failure, if any, that [save_data] meets in state [s]: the existing
    file cannot be parsed, or the write fails. *)
Definition persist_failure (env : Env) (s : state) : option exn :=
  match disk s with
  | Denied => Some PermissionError
  | Blank => Some EmptyDataError
  | Garbled d => Some (ParserError d)
  | _ => option_map fst (write_fault env (writes s))
  end.

(** The results of the rounds that [run_bot] goes through, one list for
    each round. *)
Fixpoint round_results (env : Env) (fuel : nat) (s : state)
  : list (list Observation) :=
  match fuel with
  | O => []
  | S fuel' =>
      match read_running env s with
      | Returns true s1 =>
          collect env (requests s1) (reads s1) (sites s1)
          :: match round env s1 with
             | Returns _ s2 => round_results env fuel' s2
             | Raises _ _ => []
             end
      | _ => []
      end
  end.

(** The state after the first [k] rounds of [run_bot], when the flag
    lets each of them start and none of them raises. *)
Fixpoint after_rounds (env : Env) (k : nat) (s : state) : option state :=
  match k with
  | O => Some s
  | S k' =>
      match read_running env s with
      | Returns true s1 =>
          match round env s1 with
          | Returns _ s2 => after_rounds env k' s2
          | Raises _ _ => None
          end
      | _ => None
      end
  end.

(** ** Sample pages, environments and states *)

Module Sample.

Import Soup.

(** <div id="price">19.99</div> *)
Definition div_id_price : node :=
  Tag "div" [("id", "price")] [NavigableString "19.99"].

(** <span class="price"> $12.99 </span> *)
Definition span_price : node :=
  Tag "span" [("class", "price")] [NavigableString " $12.99 "].

(** <p class="price">$12 <small>per kg</small></p> *)
Definition p_per_kg : node :=
  Tag "p" [("class", "price")]
    [NavigableString "$12 "; Tag "small" [] [NavigableString "per kg"]].

(** <span class="price"><b>EUR</b> <i>5</i></span> *)
Definition span_eur : node :=
  Tag "span" [("class", "price")]
    [Tag "b" [] [NavigableString "EUR"]; NavigableString " ";
     Tag "i" [] [NavigableString "5"]].

(** http://a serves the div, http://b answers 404, http://c serves the
    span, any other host is unreachable; the clock shows 1000 + k; the
    disk takes every write; [stop()] is called before read number
    [stop_at]. *)
Definition web (stop_at : nat) : Env :=
  mkEnv
    (fun _ u =>
       if (u =? "http://a")%string
       then inr (mkResponse 200 "OK" "http://a/" [div_id_price])
       else if (u =? "http://b")%string
       then inr (mkResponse 404 "Not Found" "http://b/" [])
       else if (u =? "http://c")%string
       then inr (mkResponse 200 "OK" "http://c/" [span_price])
       else inl "connection refused")
    (fun k => 1000 + Z.of_nat k)
    (fun k => (k =? stop_at)%nat)
    (fun _ _ => BadSelector "unsupported selector")
    (fun _ => None).

(** As [web], on a disk whose writes all fail for lack of space. *)
Definition web_disk_full (stop_at : nat) : Env :=
  mkEnv (http_get (web stop_at)) (now (web stop_at))
    (stop_request (web stop_at)) (css_engine (web stop_at))
    (fun _ => Some (OSError "[Errno 28] No space left on device",
                    Garbled "truncated")).

Definition targets : list Target :=
  [("http://a", None); ("http://b", None);
   ("http://c", Some ".price"); ("http://d", None)].

(** A bot just constructed with a callback, then configured. *)
Definition idle (f : file) : state :=
  mkState targets 1 false 0 true [] [] f 0 0 0 0.

Definition obs1 : Observation := mkObservation "http://a" "19.99" 1001.
Definition obs2 : Observation := mkObservation "http://c" "$12.99" 1003.
Definition obs3 : Observation := mkObservation "http://a" "18.49" 2001.

Definition old_rows : list (list Pd.cell) :=
  [[Pd.Str "http://z"; Pd.Str "7"; Pd.Str "2024-01-01 10:00:00"]].

(** A stored row whose price is the text N/A. *)
Definition na_rows : list (list Pd.cell) :=
  [[Pd.Str "http://z"; Pd.Str "N/A"; Pd.Str "2024-01-01 10:00:00"]].

(** <span class="price">N/A</span> *)
Definition span_na : node :=
  Tag "span" [("class", "price")] [NavigableString "N/A"].

(** As [web], with every url serving the span whose price is N/A. *)
Definition web_na (stop_at : nat) : Env :=
  mkEnv (fun _ u => inr (mkResponse 200 "OK" u [span_na]))
    (now (web stop_at)) (stop_request (web stop_at))
    (css_engine (web stop_at)) (write_fault (web stop_at)).

Definition idle_na : state :=
  mkState [("http://n/", None)] 1 false 0 true [] [] Missing 0 0 0 0.

End Sample.

(** The state after the loop of [scrape_all_sites] has dealt with one
    target, the bot running and no stop pending. *)
Definition after_target (env : Env) (t : Target) (s : state) : state :=
  let s1 := log ("Scraping " ++ fst t ++ " ...") (set_reads (S (reads s)) s) in
  let s2 := set_requests (S (requests s)) s1 in
  match outcome_of env (requests s) t with
  | inr p =>
      set_data (data s ++ [mkObservation (fst t) p (now env (S (requests s)))])
        (log ("Price found: " ++ p) s2)
  | inl e => log ("Error scraping " ++ fst t ++ ": " ++ str_exn e) s2
  end.

(** The state after [n] sleep slices that no stop interrupts. *)
Definition after_slices (n : nat) (s : state) : state :=
  set_slept (slept s + 10 * Z.of_nat n) (set_reads (reads s + n) s).

Definition sleeping_line (s : state) : string :=
  "Sleeping for " ++ Py.str_int (interval s) ++ " minutes..." ++ Py.newline.

(** ** Further descriptions *)

Definition starts_with_space (s : string) : bool :=
  match s with
  | String c _ => Py.is_space c
  | EmptyString => false
  end.

Fixpoint ends_with_space (s : string) : bool :=
  match s with
  | EmptyString => false
  | String c EmptyString => Py.is_space c
  | String _ r => ends_with_space r
  end.

(** Some tag of the document has "price" inside its class or its id. *)
Definition has_price_marker (doc : Soup.soup) : bool :=
  existsb
    (fun t => Soup.matches (Soup.ClassContains "price") t
              || Soup.matches (Soup.IdContains "price") t)
    (flat_map Soup.subtree doc).

(** What the cycle is configured with, and the log when no callback is
    installed. *)
Definition same_config (s s' : state) : Prop :=
  sites s' = sites s /\ interval s' = interval s /\ thread s' = thread s
  /\ log_callback s' = log_callback s
  /\ (log_callback s = false -> console s' = console s).

(** The file, the count of writes and the time slept. *)
Definition same_store (s s' : state) : Prop :=
  disk s' = disk s /\ writes s' = writes s /\ slept s' = slept s.

(** ** The front end: PriceScraperUI *)

Module Ui.

(** The line boundaries of [str.splitlines] among the code points below
    256: LF, VT, FF, CR, FS, GS, RS and NEL. *)
Definition is_linebreak (c : ascii) : bool :=
  let n := nat_of_ascii c in
  ((10 <=? n) && (n <=? 13) || (28 <=? n) && (n <=? 30) || (n =? 133))%nat.

(** [s.splitlines()]: a boundary ends the line before it, CR LF counts as
    one boundary, and no empty line follows the last boundary. *)
Fixpoint splitlines_from (cur : string) (s : string) : list string :=
  match s with
  | EmptyString => if (cur =? "")%string then [] else [cur]
  | String c s' =>
      if is_linebreak c
      then cur :: match s' with
                  | String d s'' =>
                      if ((nat_of_ascii c =? 13) && (nat_of_ascii d =? 10))%nat
                      then splitlines_from "" s''
                      else splitlines_from "" s'
                  | EmptyString => splitlines_from "" s'
                  end
      else splitlines_from (cur ++ String c "") s'
  end.

Definition splitlines (s : string) : list string := splitlines_from "" s.

(** The longest run of non-space characters at the head, and the rest. *)
Fixpoint take_token (s : string) : string * string :=
  match s with
  | EmptyString => ("", "")
  | String c s' =>
      if Py.is_space c then ("", s)
      else let (tok, rest) := take_token s' in (String c tok, rest)
  end.

(** [line.split(maxsplit=1)]: the first word, then what follows it from
    its first non-space character to the end of the line. *)
Definition split_maxsplit1 (line : string) : list string :=
  match Py.lstrip line with
  | EmptyString => []
  | body =>
      let (tok, rest) := take_token body in
      match Py.lstrip rest with
      | EmptyString => [tok]
      | rest' => [tok; rest']
      end
  end.

(** The [for line in urls_input.splitlines()] loop of [start_bot]; [None]
    when [parts[0]] raises IndexError. *)
Fixpoint parse_lines (lines : list string) : option (list Target) :=
  match lines with
  | [] => Some []
  | line :: rest =>
      if negb (Py.truthy (Py.strip line)) then parse_lines rest
      else
        match split_maxsplit1 line with
        | [] => None
        | u :: more =>
            match parse_lines rest with
            | Some sites =>
                Some ((u, match more with
                          | selector :: _ => Some selector
                          | [] => None
                          end) :: sites)
            | None => None
            end
        end
  end.

(** The parts of the window that [start_bot] and [stop_bot] touch: the
    bot, whether each button is enabled, and the warnings shown. *)
Record ui : Type := mkUi {
  bot : state;
  start_button : bool;
  stop_button : bool;
  warnings : list (string * string)
}.

(** [PriceScraperBot.__init__], in a world whose dataset file is [f]. *)
Definition new_bot (has_callback : bool) (f : file) : state :=
  mkState [] 60 false 0 has_callback [] [] f 0 0 0 0.

Definition showwarning (title message : string) (u : ui) : ui :=
  mkUi (bot u) (start_button u) (stop_button u)
    (warnings u ++ [(title, message)])%list.

(** [start_bot], for the content of the text box and of the interval
    entry.  [int] is Python's [int] on strings, [None] for ValueError.  The
    result is [None] when an uncaught exception leaves the method. *)
Definition start_bot (int : string -> option Z)
    (url_text interval_var : string) (u : ui) : option ui :=
  let urls_input := Py.strip url_text in
  if negb (Py.truthy urls_input)
  then Some (showwarning "Input needed" "Please enter at least one URL." u)
  else
    match (match int interval_var with
           | Some n => if n <=? 0 then None else Some n
           | None => None
           end) with
    | None =>
        Some (showwarning "Invalid interval"
                "Please enter a positive integer for interval." u)
    | Some minutes =>
        match parse_lines (splitlines urls_input) with
        | None => None
        | Some targets =>
            Some (mkUi (start (set_interval minutes
                                 (set_sites targets (bot u))))
                    false true (warnings u))
        end
    end.

Definition stop_bot (u : ui) : ui :=
  mkUi (stop (bot u)) true false (warnings u).

(** A target as the text box can give it: the url is a non-empty word,
    and the selector, if any, is not empty and starts with no space. *)
Definition well_formed (t : Target) : Prop :=
  fst t <> ""
  /\ Soup.all_chars (fun c => negb (Py.is_space c)) (fst t) = true
  /\ match snd t with
     | Some selector =>
         selector <> "" /\ starts_with_space selector = false
     | None => True
     end.

(** The line [line] reads as the target [t]: the line is some whitespace,
    the url, and then either whitespace to its end, or some whitespace and
    the selector, which runs to the end of the line. *)
Definition reads_as (line : string) (t : Target) : Prop :=
  exists lead gap,
    Soup.all_chars Py.is_space lead = true
    /\ Soup.all_chars Py.is_space gap = true
    /\ match snd t with
       | Some selector => gap <> "" /\ line = lead ++ fst t ++ gap ++ selector
       | None => line = lead ++ fst t ++ gap
       end.

(** A stand-in for [int] on plain decimal numerals. *)
Definition plain_int (s : string) : option Z :=
  match NilZero.int_of_string s with
  | Some d => Some (Z.of_int d)
  | None => None
  end.

End Ui.
(** ** State bookkeeping *)

Lemma sites_log (m : string) (s : state) : sites (log m s) = sites s.
Proof. unfold log. now destruct (log_callback s). Qed.

Lemma interval_log (m : string) (s : state) : interval (log m s) = interval s.
Proof. unfold log. now destruct (log_callback s). Qed.

Lemma running_log (m : string) (s : state) : running (log m s) = running s.
Proof. unfold log. now destruct (log_callback s). Qed.

Lemma thread_log (m : string) (s : state) : thread (log m s) = thread s.
Proof. unfold log. now destruct (log_callback s). Qed.

Lemma log_callback_log (m : string) (s : state) :
  log_callback (log m s) = log_callback s.
Proof. unfold log. now destruct (log_callback s) eqn:E. Qed.

Lemma data_log (m : string) (s : state) : data (log m s) = data s.
Proof. unfold log. now destruct (log_callback s). Qed.

Lemma disk_log (m : string) (s : state) : disk (log m s) = disk s.
Proof. unfold log. now destruct (log_callback s). Qed.

Lemma requests_log (m : string) (s : state) : requests (log m s) = requests s.
Proof. unfold log. now destruct (log_callback s). Qed.

Lemma reads_log (m : string) (s : state) : reads (log m s) = reads s.
Proof. unfold log. now destruct (log_callback s). Qed.

Lemma writes_log (m : string) (s : state) : writes (log m s) = writes s.
Proof. unfold log. now destruct (log_callback s). Qed.

Lemma slept_log (m : string) (s : state) : slept (log m s) = slept s.
Proof. unfold log. now destruct (log_callback s). Qed.

Lemma console_log (m : string) (s : state) :
  console (log m s)
  = if log_callback s then (console s ++ [m])%list else console s.
Proof. unfold log. now destruct (log_callback s). Qed.

Create Rewrite HintDb state.

#[local] Hint Rewrite sites_log interval_log running_log thread_log
  log_callback_log data_log disk_log requests_log reads_log writes_log
  slept_log console_log : state.

Lemma state_ext (s t : state) :
  sites s = sites t -> interval s = interval t -> running s = running t ->
  thread s = thread t -> log_callback s = log_callback t ->
  data s = data t -> console s = console t -> disk s = disk t ->
  requests s = requests t -> reads s = reads t -> writes s = writes t ->
  slept s = slept t -> s = t.
Proof. destruct s, t; cbn; intros; subst; reflexivity. Qed.

Ltac state_cbn :=
  cbn [sites interval running thread log_callback data console disk
       requests reads writes slept
       set_sites set_interval set_running set_thread set_data set_console
       set_disk set_requests set_reads set_writes set_slept] in *.

Ltac state_fields :=
  unfold after_slices in *;
  repeat (progress (autorewrite with state in *; state_cbn));
  repeat match goal with
         | H : log_callback ?s = _ |- context [log_callback ?s] => rewrite H
         | |- context [if log_callback ?s then _ else _] =>
             destruct (log_callback s) eqn:?
         end;
  try reflexivity; try congruence.

(** ** Extraction *)

Section Extraction.

Variable env : Env.

Lemma parse_common_selectors :
  map Soup.parse_simple common_selectors = map Some default_queries.
Proof. reflexivity. Qed.

Lemma try_selectors_simple (doc : Soup.soup) (sels : list string)
    (qs : list Soup.simple_selector) :
  map Soup.parse_simple sels = map Some qs ->
  try_selectors env doc sels =
  match first_default doc qs with
  | Some t => inr (Soup.get_text true t)
  | None => inl not_found_default
  end.
Proof.
  revert qs.
  induction sels as [|sel sels IH]; intros [|q qs] Hparse;
    try discriminate; [reflexivity|].
  cbn [map] in Hparse. injection Hparse as Hq Hrest.
  cbn [try_selectors first_default].
  unfold select_one, Soup.select_one, Soup.first_match. rewrite Hq.
  destruct (find (Soup.matches q) (flat_map Soup.subtree doc)).
  - reflexivity.
  - now apply IH.
Qed.

Lemma get_text_single (name : string) (attrs : list (string * string))
    (text : string) :
  Soup.get_text true (Soup.Tag name attrs [Soup.NavigableString text])
  = Py.strip text.
Proof.
  unfold Soup.get_text, Soup.all_strings. cbn.
  destruct (Py.strip text) eqn:E; reflexivity.
Qed.

End Extraction.

(** ** Start and stop *)

Lemma start_running (s : state) : running s = true -> start s = s.
Proof. intros H. unfold start. now rewrite H. Qed.

Lemma stop_idle (s : state) : running s = false -> stop s = s.
Proof. intros H. unfold stop. now rewrite H. Qed.

Lemma running_start (s : state) : running (start s) = true.
Proof.
  unfold start. destruct (running s) eqn:E; cbn; [exact E|].
  now rewrite running_log.
Qed.

(** C9.  [start()] on a running bot changes nothing, and [stop()] on an
    idle bot changes nothing; so a second [start()] right after a first one
    changes nothing, and two [start()] calls on an idle bot start exactly
    one thread on [run_bot]. *)
Theorem start_twice_one_cycle (s : state) :
  (running s = true -> start s = s)
  /\ (running s = false -> stop s = s)
  /\ start (start s) = start s
  /\ (running s = false ->
      thread (start (start s)) = S (thread s)
      /\ running (start (start s)) = true).
Proof.
  split; [apply start_running|].
  split; [apply stop_idle|].
  assert (Htwice : start (start s) = start s)
    by (apply start_running, running_start).
  split; [exact Htwice|].
  intros Hidle. rewrite Htwice. split; [|apply running_start].
  unfold start. rewrite Hidle. cbn. now rewrite thread_log.
Qed.

Lemma start_twice_one_cycle_witness :
  let s := Sample.idle Missing in
  (running (start s) = true -> start (start s) = start s)
  /\ (running s = false -> stop s = s)
  /\ thread (start (start s)) = 1%nat.
Proof.
  intros s.
  destruct (start_twice_one_cycle s) as (_ & Hstop & _ & Hone).
  destruct (start_twice_one_cycle (start s)) as (Hstart & _).
  split; [exact Hstart|]. split; [exact Hstop|].
  destruct (Hone eq_refl) as [Hthread _]. exact Hthread.
Defined.

(** ** Extraction: the claims *)

(** C5, as stated, fails.  On <p class="price">$12 <small>per kg</small></p>
    the first default selector matches the paragraph, whose text trimmed as
    a whole is "$12 per kg"; extraction returns "$12per kg". *)
Lemma default_text_is_not_trimmed_whole :
  let doc := [Sample.p_per_kg] in
  first_default doc default_queries = Some Sample.p_per_kg
  /\ trimmed_text Sample.p_per_kg = "$12 per kg"
  /\ extract (Sample.web 0) doc None = inr "$12per kg"
  /\ extract (Sample.web 0) doc None <> inr (trimmed_text Sample.p_per_kg).
Proof.
  cbv zeta. repeat split; try reflexivity.
  vm_compute. discriminate.
Qed.

(** C5, amended.  Without a selector, extraction tries [.price], [#price],
    [[class*="price"]], [[id*="price"]] in this order and stops at the first
    that matches some tag; it returns the text nodes below the first tag so
    matched, each stripped on its own and joined without separator; when
    none of the four matches it raises the default not-found error.  For a
    tag that holds one text node the result is that text, trimmed; so
    <div id="price">19.99</div>, which [.price] does not match and [#price]
    does, yields "19.99". *)
Theorem default_selectors_in_order (env : Env) (doc : Soup.soup) :
  extract env doc None =
    match first_default doc default_queries with
    | Some t => inr (Soup.get_text true t)
    | None => inl not_found_default
    end
  /\ (forall name attrs text,
        Soup.get_text true (Soup.Tag name attrs [Soup.NavigableString text])
        = Py.strip text)
  /\ first_default [Sample.div_id_price] [Soup.ClassSel "price"] = None
  /\ first_default [Sample.div_id_price] [Soup.IdSel "price"]
     = Some Sample.div_id_price
  /\ extract env [Sample.div_id_price] None = inr "19.99".
Proof.
  assert (Hgen : forall d, extract env d None =
                   match first_default d default_queries with
                   | Some t => inr (Soup.get_text true t)
                   | None => inl not_found_default
                   end).
  { intros d. cbn [extract].
    apply try_selectors_simple, parse_common_selectors. }
  split; [apply Hgen|].
  split; [apply get_text_single|].
  split; [reflexivity|]. split; [reflexivity|].
  rewrite Hgen. reflexivity.
Qed.

(** C6, as stated, fails.  On <span class="price"><b>EUR</b> <i>5</i></span>
    the selector [.price] matches the span, whose text trimmed as a whole
    is "EUR 5"; extraction returns "EUR5". *)
Lemma selected_text_is_not_trimmed_whole :
  let doc := [Sample.span_eur] in
  select_one (Sample.web 0) doc ".price" = Soup.Found Sample.span_eur
  /\ trimmed_text Sample.span_eur = "EUR 5"
  /\ extract (Sample.web 0) doc (Some ".price") = inr "EUR5"
  /\ extract (Sample.web 0) doc (Some ".price")
     <> inr (trimmed_text Sample.span_eur).
Proof.
  cbv zeta. repeat split; try reflexivity.
  vm_compute. discriminate.
Qed.

(** C6, amended.  With a non-empty selector, extraction returns the text
    nodes below the tag that [select_one] finds, each stripped on its own
    and joined without separator; it raises the not-found error that names
    the selector when [select_one] finds none, and the syntax error when the
    selector is rejected.  For a tag that holds one text node the result is
    that text, trimmed; so <span class="price"> $12.99 </span> with [.price]
    yields "$12.99".  The empty string as selector is no selector. *)
Theorem explicit_selector (env : Env) (doc : Soup.soup) (sel : string) :
  sel <> "" ->
  extract env doc (Some sel) =
    match select_one env doc sel with
    | Soup.Found t => inr (Soup.get_text true t)
    | Soup.NotFound => inl (not_found_with sel)
    | Soup.BadSelector d => inl (SelectorSyntaxError d)
    end
  /\ (forall name attrs text,
        Soup.get_text true (Soup.Tag name attrs [Soup.NavigableString text])
        = Py.strip text)
  /\ extract env [Sample.span_price] (Some ".price") = inr "$12.99"
  /\ extract env doc (Some "") = extract env doc None.
Proof.
  intros Hsel.
  split; [|split; [apply get_text_single|split; reflexivity]].
  cbn [extract]. unfold Py.truthy.
  destruct (String.eqb_spec sel ""); [contradiction|reflexivity].
Qed.

Lemma explicit_selector_witness :
  ".price" <> ""
  /\ extract (Sample.web 0) [Sample.span_price] (Some ".price")
     = inr (Soup.get_text true Sample.span_price)
  /\ extract (Sample.web 0) [] (Some ".price")
     = inl (not_found_with ".price").
Proof.
  assert (H : ".price" <> "") by discriminate.
  split; [exact H|]. split.
  - exact (proj1 (explicit_selector (Sample.web 0) [Sample.span_price]
                    ".price" H)).
  - exact (proj1 (explicit_selector (Sample.web 0) [] ".price" H)).
Defined.

(** ** Rounds *)

Section Rounds.

Variable env : Env.

Lemma get_price_from_url_outcome (u : string) (sel : option string)
    (s : state) :
  get_price_from_url env u sel s =
  match outcome_of env (requests s) (u, sel) with
  | inr p => Returns p (set_requests (S (requests s)) s)
  | inl e => Raises e (set_requests (S (requests s)) s)
  end.
Proof.
  unfold get_price_from_url, outcome_of, bind, requests_get,
    raise_for_status. cbn [fst snd].
  destruct (http_get env (requests s) u) as [detail|r]; [reflexivity|].
  destruct (status_error r) as [e|]; [reflexivity|].
  unfold ret.
  destruct (extract env (body r) sel); reflexivity.
Qed.

Lemma scrape_loop_step (t : Target) (rest : list Target) (s : state) :
  running s = true ->
  stop_request env (reads s) = false ->
  scrape_loop env (t :: rest) s = scrape_loop env rest (after_target env t s).
Proof.
  intros Hrun Hstop. destruct t as [u sel].
  cbn [scrape_loop]. unfold bind at 1. unfold read_running.
  rewrite Hstop. cbn [running set_reads]. rewrite Hrun. cbn [negb].
  unfold bind at 1. unfold modify at 1.
  unfold bind at 1. unfold try_except, any_exception.
  unfold bind at 1. rewrite get_price_from_url_outcome.
  unfold after_target. cbn [fst snd].
  replace (requests (log ("Scraping " ++ u ++ " ...")
                       (set_reads (S (reads s)) s)))
    with (requests s) by state_fields.
  destruct (outcome_of env (requests s) (u, sel)) as [e|p].
  - unfold modify. reflexivity.
  - unfold bind, modify, datetime_now, gets.
    f_equal. state_fields.
Qed.

Lemma scrape_loop_stopped (t : Target) (rest : list Target) (s : state) :
  stop_request env (reads s) = true ->
  scrape_loop env (t :: rest) s
  = Returns tt (set_reads (S (reads (stop s))) (stop s)).
Proof.
  intros Hstop. destruct t as [u sel].
  cbn [scrape_loop]. unfold bind at 1. unfold read_running.
  rewrite Hstop.
  replace (running (set_reads (S (reads (stop s))) (stop s))) with false;
    [reflexivity|].
  unfold stop. destruct (running s) eqn:Hrun; state_fields.
Qed.

Lemma after_target_running t s : running (after_target env t s) = running s.
Proof. unfold after_target. destruct (outcome_of _ _ _); state_fields. Qed.

Lemma after_target_disk t s : disk (after_target env t s) = disk s.
Proof. unfold after_target. destruct (outcome_of _ _ _); state_fields. Qed.

Lemma after_target_requests t s :
  requests (after_target env t s) = S (requests s).
Proof. unfold after_target. destruct (outcome_of _ _ _); state_fields. Qed.

Lemma after_target_reads t s : reads (after_target env t s) = S (reads s).
Proof. unfold after_target. destruct (outcome_of _ _ _); state_fields. Qed.

Lemma after_target_log_callback t s :
  log_callback (after_target env t s) = log_callback s.
Proof. unfold after_target. destruct (outcome_of _ _ _); state_fields. Qed.

Lemma after_target_data t s :
  data (after_target env t s)
  = (data s ++ target_obs env (requests s) t)%list.
Proof.
  unfold after_target, target_obs.
  destruct (outcome_of _ _ _); state_fields.
  all: now rewrite app_nil_r.
Qed.

Lemma after_target_console t s :
  log_callback s = true ->
  console (after_target env t s)
  = (console s ++ target_lines env (requests s) t)%list.
Proof.
  unfold after_target, target_lines.
  intros Hcb.
  destruct (outcome_of _ _ _); state_fields;
    now rewrite <- app_assoc.
Qed.

Lemma scrape_loop_idle (targets : list Target) (s : state) :
  running s = false ->
  exists s', scrape_loop env targets s = Returns tt s'
             /\ disk s' = disk s /\ data s' = data s.
Proof.
  intros Hidle. destruct targets as [|[u sel] rest].
  - exists s. now repeat split.
  - exists (set_reads (S (reads s)) s).
    cbn [scrape_loop]. unfold bind, read_running.
    rewrite (stop_idle s Hidle).
    destruct (stop_request env (reads s)); cbn [running set_reads];
      rewrite Hidle; now repeat split.
Qed.

Lemma scrape_loop_collect (targets : list Target) :
  forall s, running s = true ->
  exists s', scrape_loop env targets s = Returns tt s'
             /\ data s' = (data s
                           ++ collect env (requests s) (reads s) targets)%list
             /\ disk s' = disk s.
Proof.
  induction targets as [|t rest IH]; intros s Hrun.
  - exists s. cbn. now rewrite app_nil_r.
  - cbn [collect]. destruct (stop_request env (reads s)) eqn:Hstop.
    + rewrite (scrape_loop_stopped _ _ _ Hstop).
      eexists. split; [reflexivity|].
      rewrite app_nil_r. unfold stop. rewrite Hrun. split; state_fields.
    + rewrite (scrape_loop_step _ _ _ Hrun Hstop).
      destruct (IH (after_target env t s)) as (s' & Hloop & Hdata & Hdisk).
      { now rewrite after_target_running. }
      exists s'. split; [exact Hloop|].
      rewrite Hdata, Hdisk, after_target_data, after_target_requests,
        after_target_reads, after_target_disk.
      now rewrite app_assoc.
Qed.

Lemma scrape_loop_no_stop (targets : list Target) :
  forall s, running s = true -> log_callback s = true ->
  (forall i, (i < List.length targets)%nat ->
             stop_request env (reads s + i) = false) ->
  exists s', scrape_loop env targets s = Returns tt s'
             /\ data s' = (data s ++ round_result env (requests s) targets)%list
             /\ console s'
                = (console s ++ round_lines env (requests s) targets)%list
             /\ requests s' = (requests s + List.length targets)%nat.
Proof.
  induction targets as [|t rest IH]; intros s Hrun Hcb Hquiet.
  - exists s. cbn. rewrite !app_nil_r. repeat split. lia.
  - assert (Hstop : stop_request env (reads s) = false).
    { rewrite <- (Nat.add_0_r (reads s)). apply Hquiet. cbn. lia. }
    rewrite (scrape_loop_step _ _ _ Hrun Hstop).
    destruct (IH (after_target env t s))
      as (s' & Hloop & Hdata & Hconsole & Hreq).
    { now rewrite after_target_running. }
    { now rewrite after_target_log_callback. }
    { intros i Hi. rewrite after_target_reads.
      replace (S (reads s) + i)%nat with (reads s + S i)%nat by lia.
      apply Hquiet. cbn. lia. }
    exists s'. split; [exact Hloop|].
    rewrite Hdata, Hconsole, Hreq, after_target_data,
      (after_target_console _ _ Hcb), after_target_requests.
    cbn [round_result round_lines List.length].
    rewrite <- !app_assoc. repeat split. lia.
Qed.

Lemma scrape_all_sites_unfold (s : state) :
  scrape_all_sites env s = scrape_loop env (sites s) (set_data [] s).
Proof. reflexivity. Qed.

Lemma scrape_all_sites_returns (s : state) :
  exists s', scrape_all_sites env s = Returns tt s' /\ disk s' = disk s.
Proof.
  rewrite scrape_all_sites_unfold.
  destruct (running s) eqn:Hrun.
  - destruct (scrape_loop_collect (sites s) (set_data [] s) Hrun)
      as (s' & Hloop & _ & Hdisk).
    now exists s'.
  - destruct (scrape_loop_idle (sites s) (set_data [] s) Hrun)
      as (s' & Hloop & Hdisk & _).
    now exists s'.
Qed.

(** C2.  [scrape_all_sites] always returns: no failure of a target is
    raised out of it.  In a round that no stop interrupts, every target is
    requested, each failed target leaves its error line in the log and
    nothing in the result, and the result holds the observations of the
    successful targets in target order. *)
Theorem failing_target_does_not_abort_round (s : state) :
  (exists s', scrape_all_sites env s = Returns tt s')
  /\ (running s = true ->
      log_callback s = true ->
      (forall i, (i < List.length (sites s))%nat ->
                 stop_request env (reads s + i) = false) ->
      exists s', scrape_all_sites env s = Returns tt s'
        /\ data s' = round_result env (requests s) (sites s)
        /\ console s'
           = (console s ++ round_lines env (requests s) (sites s))%list
        /\ requests s' = (requests s + List.length (sites s))%nat).
Proof.
  split.
  - destruct (scrape_all_sites_returns s) as (s' & Hret & _). now exists s'.
  - intros Hrun Hcb Hquiet. rewrite scrape_all_sites_unfold.
    destruct (scrape_loop_no_stop (sites s) (set_data [] s) Hrun Hcb Hquiet)
      as (s' & Hloop & Hdata & Hconsole & Hreq).
    exists s'. now repeat split.
Qed.

End Rounds.

Lemma failing_target_does_not_abort_round_witness :
  let env := Sample.web 99 in
  let s := start (Sample.idle Missing) in
  exists s', scrape_all_sites env s = Returns tt s'
    /\ data s' = [Sample.obs1; Sample.obs2]
    /\ requests s' = 4%nat.
Proof.
  intros env s.
  destruct (failing_target_does_not_abort_round env s) as [_ H].
  destruct H as (s' & Hret & Hdata & _ & Hreq).
  - reflexivity.
  - reflexivity.
  - intros i Hi. cbn in Hi. cbn. apply Nat.eqb_neq. lia.
  - exists s'. split; [exact Hret|]. split; [|exact Hreq].
    rewrite Hdata. reflexivity.
Defined.

(** ** Persistence *)

Lemma reindex_schema (row : list Pd.cell) :
  List.length row = 3%nat -> Pd.reindex Pd.schema Pd.schema row = row.
Proof.
  destruct row as [|a [|b [|c [|d row]]]]; cbn; intros H;
    try discriminate; reflexivity.
Qed.

Lemma map_reindex_schema (rs : list (list Pd.cell)) :
  Forall (fun row => List.length row = 3%nat) rs ->
  map (Pd.reindex Pd.schema Pd.schema) rs = rs.
Proof.
  induction 1 as [|row rs Hrow _ IH]; cbn [map]; [reflexivity|].
  now rewrite IH, reindex_schema.
Qed.

Lemma record_rows_width (records : list Observation) :
  Forall (fun row => List.length row = 3%nat) (map Pd.record_row records).
Proof. induction records; cbn [map]; constructor; auto. Qed.

Lemma concat_dataset (old : list (list Pd.cell))
    (records : list Observation) :
  Forall (fun row => List.length row = 3%nat) old ->
  records <> [] ->
  Pd.concat (Pd.mkDataFrame Pd.schema old) (Pd.of_records records)
  = Pd.mkDataFrame Pd.schema (old ++ map Pd.record_row records)%list.
Proof.
  intros Hold Hne. destruct records as [|o records]; [contradiction|].
  unfold Pd.concat, Pd.of_records. cbn [Pd.columns Pd.rows].
  change (Pd.schema
          ++ filter (fun c => negb (Soup.mem c Pd.schema)) Pd.schema)%list
    with Pd.schema.
  rewrite (map_reindex_schema old Hold).
  now rewrite (map_reindex_schema _ (record_rows_width (o :: records))).
Qed.

Lemma reread_width (rs : list (list Pd.cell)) :
  Forall (fun row => List.length row = 3%nat) rs ->
  Forall (fun row => List.length row = 3%nat) (Pd.reread rs).
Proof.
  unfold Pd.reread. induction 1 as [|row rs Hrow _ IH]; cbn [map];
    constructor; [now rewrite length_map|exact IH].
Qed.

Lemma reread_length (rs : list (list Pd.cell)) :
  List.length (Pd.reread rs) = List.length rs.
Proof. apply length_map. Qed.

Lemma concat_length (a b : Pd.DataFrame) :
  List.length (Pd.rows (Pd.concat a b))
  = (List.length (Pd.rows a) + List.length (Pd.rows b))%nat.
Proof.
  unfold Pd.concat. cbn [Pd.rows]. now rewrite length_app, !length_map.
Qed.

Lemma concat_columns (a : Pd.DataFrame) (records : list Observation) :
  records <> [] -> Pd.columns (Pd.concat a (Pd.of_records records)) <> [].
Proof.
  intros Hne. destruct records as [|o records]; [contradiction|].
  unfold Pd.concat, Pd.of_records. cbn [Pd.columns].
  destruct (Pd.columns a) as [|c cols]; [|discriminate].
  cbn. discriminate.
Qed.

Lemma csv_file_columns (t : Pd.DataFrame) :
  Pd.columns t <> [] -> csv_file t = Csv t.
Proof. unfold csv_file. now destruct (Pd.columns t). Qed.

(** Text with a character of [Pd.text_chars] is no missing-value marker. *)
Lemma plain_text_not_na (p : string) :
  Pd.is_plain_text p = true -> Pd.is_na p = false.
Proof.
  intros Hplain. unfold Pd.is_na, Pd.na_values, Soup.mem.
  cbn [existsb]. rewrite !orb_false_iff. 
  repeat split; try reflexivity;
    match goal with
    | |- String.eqb p ?m = false =>
        destruct (String.eqb_spec p m) as [->|]; [|reflexivity];
        vm_compute in Hplain; discriminate
    | |- String.eqb ?m p = false =>
        destruct (String.eqb_spec m p) as [<-|]; [|reflexivity];
        vm_compute in Hplain; discriminate
    end.
Qed.

Section Persistence.

Variable env : Env.

Lemma persist_nonempty (s : state) :
  data s <> [] -> persist env s = save_data env s.
Proof.
  intros Hne. unfold persist, bind, gets.
  destruct (data s); [contradiction|reflexivity].
Qed.

Lemma save_data_missing (s : state) :
  disk s = Missing ->
  write_fault env (writes s) = None ->
  save_data env s =
  Returns tt (log "Data saved to scraped_prices.csv"
                (set_disk (csv_file (Pd.of_records (data s)))
                   (set_writes (S (writes s)) s))).
Proof.
  intros Hdisk Hwrite.
  unfold save_data, bind, gets, try_except, read_csv, to_csv, modify, ret.
  rewrite Hdisk. cbn [is_FileNotFoundError]. now rewrite Hwrite.
Qed.

Lemma save_data_csv (s : state) (t : Pd.DataFrame) :
  disk s = Csv t ->
  write_fault env (writes s) = None ->
  save_data env s =
  Returns tt (log "Data saved to scraped_prices.csv"
                (set_disk (csv_file (Pd.concat (Pd.infer t)
                                       (Pd.of_records (data s))))
                   (set_writes (S (writes s)) s))).
Proof.
  intros Hdisk Hwrite.
  unfold save_data, bind, gets, try_except, read_csv, to_csv, modify, ret.
  rewrite Hdisk. now rewrite Hwrite.
Qed.

Lemma save_data_fails (s : state) (e : exn) :
  persist_failure env s = Some e ->
  exists s', save_data env s = Raises e s'
             /\ console s' = console s /\ running s' = running s
             /\ requests s' = requests s /\ reads s' = reads s.
Proof.
  unfold persist_failure. intros Hfail.
  unfold save_data, bind, gets, try_except, read_csv, to_csv, modify, ret.
  destruct (disk s) eqn:Hdisk; cbn [is_FileNotFoundError].
  2-4: injection Hfail as <-; exists s; now repeat split.
  all: destruct (write_fault env (writes s)) as [[e' remains]|];
    [|discriminate]; injection Hfail as <-;
    eexists; split; [reflexivity|]; now repeat split.
Qed.

(** The file after a persist that returns. *)
Lemma persist_file (s s' : state) :
  persist env s = Returns tt s' ->
  disk s' = file_after_save (disk s) (data s).
Proof.
  intros Hret.
  destruct (data s) as [|o records] eqn:Hdata.
  - unfold persist, bind, gets, modify in Hret. rewrite Hdata in Hret.
    injection Hret as <-. cbn [file_after_save]. state_fields.
  - rewrite persist_nonempty in Hret by (rewrite Hdata; discriminate).
    destruct (persist_failure env s) as [e|] eqn:Hfail.
    + destruct (save_data_fails s e Hfail) as (s'' & Hraise & _).
      rewrite Hraise in Hret. discriminate.
    + unfold persist_failure in Hfail. cbn [file_after_save].
      destruct (disk s) as [| | |d|t] eqn:Hdisk; try discriminate;
        destruct (write_fault env (writes s)) as [[e remains]|] eqn:Hwrite;
        try discriminate.
      * rewrite (save_data_missing s Hdisk Hwrite) in Hret.
        injection Hret as <-. rewrite Hdata. state_fields.
      * rewrite (save_data_csv s t Hdisk Hwrite) in Hret.
        injection Hret as <-. rewrite Hdata. state_fields.
Qed.

End Persistence.

Lemma persist_appends (env : Env) (s : state) (old : list (list Pd.cell)) :
  data s <> [] ->
  disk s = Missing /\ old = []
  \/ disk s = Csv (Pd.mkDataFrame Pd.schema old)
     /\ Forall (fun row => List.length row = 3%nat) old ->
  write_fault env (writes s) = None ->
  exists s', persist env s = Returns tt s'
    /\ disk s' = Csv (Pd.mkDataFrame Pd.schema
                        (Pd.reread old ++ map Pd.record_row (data s))%list)
    /\ writes s' = S (writes s).
Proof.
  intros Hne Hdisk Hwrite. rewrite persist_nonempty by exact Hne.
  destruct Hdisk as [[Hdisk ->]|[Hdisk Hwidth]].
  - rewrite (save_data_missing env s Hdisk Hwrite).
    eexists. split; [reflexivity|].
    destruct (data s) as [|o records]; [contradiction|].
    split; state_fields.
  - rewrite (save_data_csv env s _ Hdisk Hwrite).
    eexists. split; [reflexivity|].
    unfold Pd.infer. cbn [Pd.columns Pd.rows].
    rewrite concat_dataset by (auto using reread_width).
    split; state_fields.
Qed.

Lemma mem_app (c : string) (l m : list string) :
  Soup.mem c (l ++ m) = Soup.mem c l || Soup.mem c m.
Proof. apply existsb_app. Qed.

Lemma mem_filter (c : string) (p : string -> bool) (m : list string) :
  Soup.mem c (filter p m) = Soup.mem c m && p c.
Proof.
  unfold Soup.mem. induction m as [|d m IH]; [reflexivity|].
  cbn [filter existsb]. destruct (String.eqb_spec c d) as [<-|Hne].
  - destruct (p c) eqn:Hp; cbn [existsb orb andb].
    + now rewrite String.eqb_refl.
    + rewrite IH. apply andb_false_r.
  - destruct (p d); cbn [existsb orb]; [|exact IH].
    destruct (String.eqb_spec c d); [contradiction|exact IH].
Qed.

Lemma distinct_filter (p : string -> bool) (m : list string) :
  Pd.distinct m = true -> Pd.distinct (filter p m) = true.
Proof.
  induction m as [|d m IH]; [reflexivity|]. cbn [Pd.distinct filter].
  intros [Hd Hm]%andb_true_iff. destruct (p d); [|now apply IH].
  cbn [Pd.distinct]. rewrite mem_filter, (IH Hm).
  apply negb_true_iff in Hd. now rewrite Hd.
Qed.

Lemma distinct_app (l m : list string) :
  Pd.distinct l = true -> Pd.distinct m = true ->
  (forall c, Soup.mem c l = true -> Soup.mem c m = false) ->
  Pd.distinct (l ++ m) = true.
Proof.
  induction l as [|d l IH]; intros Hl Hm Hdisjoint; [exact Hm|].
  cbn [Pd.distinct app] in *. apply andb_true_iff in Hl as [Hd Hl].
  rewrite mem_app. apply negb_true_iff in Hd. rewrite Hd.
  rewrite (Hdisjoint d) by (unfold Soup.mem; cbn [existsb];
                            now rewrite String.eqb_refl).
  cbn [orb negb andb]. apply IH; auto.
  intros c Hc. apply Hdisjoint. unfold Soup.mem in *. cbn [existsb].
  rewrite Hc. apply orb_true_r.
Qed.

Lemma regular_infer (t : Pd.DataFrame) :
  Pd.regular t = true -> Pd.regular (Pd.infer t) = true.
Proof.
  unfold Pd.regular, Pd.infer, Pd.reread. cbn [Pd.columns Pd.rows].
  intros [Hcols Hrows]%andb_true_iff. rewrite Hcols. cbn [andb].
  rewrite forallb_forall in *. intros row [row' [<- Hin]]%in_map_iff.
  rewrite length_map. now apply Hrows.
Qed.

Lemma regular_concat (a : Pd.DataFrame) (records : list Observation) :
  Pd.regular a = true ->
  Pd.regular (Pd.concat a (Pd.of_records records)) = true.
Proof.
  unfold Pd.regular, Pd.concat. cbn [Pd.columns Pd.rows].
  intros [[[Hsome Hdistinct]%andb_true_iff Hnames]%andb_true_iff _]
           %andb_true_iff.
  set (extra := filter (fun c => negb (Soup.mem c (Pd.columns a)))
                  (Pd.columns (Pd.of_records records))).
  assert (Hschema : Pd.distinct (Pd.columns (Pd.of_records records)) = true
                    /\ Soup.mem "" (Pd.columns (Pd.of_records records))
                       = false).
  { destruct records; split; reflexivity. }
  destruct Hschema as [Hd Hn].
  repeat (apply andb_true_iff; split).
  - rewrite length_app. destruct (Pd.columns a); [discriminate|reflexivity].
  - apply distinct_app; [exact Hdistinct|now apply distinct_filter|].
    intros c Hc. subst extra. rewrite mem_filter, Hc. apply andb_false_r.
  - rewrite mem_app. subst extra. rewrite mem_filter, Hn.
    apply negb_true_iff in Hnames. now rewrite Hnames.
  - rewrite forallb_app. apply andb_true_iff.
    split; apply forallb_forall; intros row [row' [<- _]]%in_map_iff;
      unfold Pd.reindex; rewrite length_map; apply Nat.eqb_refl.
Qed.

(** The row count after a persist onto a file that [save_data] can build
    on. *)
Lemma file_after_save_count (f : file) (records : list Observation) :
  readable f = true ->
  readable (file_after_save f records) = true
  /\ row_count (file_after_save f records)
     = (row_count f + List.length records)%nat.
Proof.
  intros Hf. destruct records as [|o records].
  - cbn [file_after_save List.length]. split; [exact Hf|lia].
  - destruct f as [| | |d|t]; try discriminate.
    + cbn [file_after_save Pd.of_records csv_file Pd.columns Pd.schema
           readable row_count Pd.rows].
      split; [|now rewrite length_map].
      unfold Pd.regular. cbn [Pd.columns Pd.rows]. apply andb_true_iff.
      split; [reflexivity|]. apply forallb_forall.
      now intros row [o' [<- _]]%in_map_iff.
    + unfold file_after_save.
      rewrite csv_file_columns by (apply concat_columns; discriminate).
      cbn [readable row_count].
      split; [now apply regular_concat, regular_infer|].
      rewrite concat_length. unfold Pd.infer. cbn [Pd.rows].
      rewrite reread_length. unfold Pd.of_records. cbn [Pd.rows].
      now rewrite length_map.
Qed.

Lemma file_after_rounds_count (results : list (list Observation)) :
  forall f : file,
  readable f = true ->
  row_count (fold_left file_after_save results f)
  = (row_count f + List.length (List.concat results))%nat.
Proof.
  induction results as [|r results IH]; intros f Hf; cbn [fold_left].
  - cbn. lia.
  - destruct (file_after_save_count f r Hf) as [Hreadable Hcount].
    rewrite IH by exact Hreadable. rewrite Hcount.
    cbn [List.concat]. rewrite length_app. lia.
Qed.




(** C4, as stated, fails.  With a dataset file of zero bytes, persisting a
    non-empty round result raises EmptyDataError and writes nothing. *)
Lemma persist_on_blank_file_raises :
  let s := set_data [Sample.obs1] (Sample.idle Blank) in
  persist (Sample.web 0) s = Raises EmptyDataError s.
Proof. reflexivity. Qed.

(** C4, amended.  When the dataset file is absent, or holds the header
    url, price, timestamp and no row, persisting a non-empty round result
    succeeds and the file then holds exactly the rows of the result under
    the header url, price, timestamp. *)
Theorem persist_without_prior_rows (env : Env) (s : state) :
  data s <> [] ->
  disk s = Missing \/ disk s = Csv (Pd.mkDataFrame Pd.schema []) ->
  write_fault env (writes s) = None ->
  exists s', persist env s = Returns tt s'
    /\ disk s' = Csv (Pd.mkDataFrame Pd.schema (map Pd.record_row (data s))).
Proof.
  intros Hne Hdisk Hwrite.
  destruct (persist_appends env s [] Hne) as (s' & Hret & Hdisk' & _).
  - destruct Hdisk; [left|right]; split; auto.
  - exact Hwrite.
  - now exists s'.
Qed.

Lemma persist_without_prior_rows_witness :
  exists s',
    persist (Sample.web 0) (set_data [Sample.obs1] (Sample.idle Missing))
    = Returns tt s'
    /\ disk s' = Csv (Pd.mkDataFrame Pd.schema [Pd.record_row Sample.obs1]).
Proof.
  apply (persist_without_prior_rows (Sample.web 0)
           (set_data [Sample.obs1] (Sample.idle Missing))).
  - discriminate.
  - left. reflexivity.
  - reflexivity.
Defined.

(** C7.  Persisting an empty round result touches no file: the dataset
    file is what it was, no write was attempted, and the only effect is
    the log line "No data scraped this round.". *)
Theorem empty_round_leaves_file (env : Env) (s : state) :
  data s = [] ->
  persist env s = Returns tt (log "No data scraped this round." s)
  /\ disk (log "No data scraped this round." s) = disk s
  /\ writes (log "No data scraped this round." s) = writes s
  /\ (log_callback s = true ->
      console (log "No data scraped this round." s)
      = (console s ++ ["No data scraped this round."])%list).
Proof.
  intros Hdata. split.
  - unfold persist, bind, gets. now rewrite Hdata.
  - repeat split; state_fields.
Qed.

Lemma empty_round_leaves_file_witness :
  let s := Sample.idle (Garbled "not a csv") in
  persist (Sample.web 0) s = Returns tt (log "No data scraped this round." s)
  /\ disk (log "No data scraped this round." s) = Garbled "not a csv".
Proof.
  intros s.
  destruct (empty_round_leaves_file (Sample.web 0) s eq_refl)
    as (Hret & Hdisk & _).
  split; [exact Hret|exact Hdisk].
Defined.

(** ** The cycle *)

Section Cycle.

Variable env : Env.

Lemma read_running_result (s s1 : state) (b : bool) :
  read_running env s = Returns b s1 ->
  running s1 = b /\ disk s1 = disk s.
Proof.
  unfold read_running. intros H. injection H as <- <-.
  split; [reflexivity|].
  unfold stop.
  destruct (stop_request env (reads s)), (running s); state_fields.
Qed.

Lemma read_running_stopped (s : state) :
  running s = false ->
  read_running env s = Returns false (set_reads (S (reads s)) s).
Proof.
  intros Hidle. unfold read_running. rewrite (stop_idle s Hidle).
  destruct (stop_request env (reads s)); cbn [running set_reads];
    now rewrite Hidle.
Qed.

Lemma read_running_quiet (s : state) :
  running s = true ->
  stop_request env (reads s) = false ->
  read_running env s = Returns true (set_reads (S (reads s)) s).
Proof.
  intros Hrun Hquiet. unfold read_running. rewrite Hquiet.
  cbn [running set_reads]. now rewrite Hrun.
Qed.

Lemma read_running_stop (s : state) :
  running s = true ->
  stop_request env (reads s) = true ->
  read_running env s
  = Returns false
      (set_reads (S (reads s)) (log "Stopping bot..." (set_running false s))).
Proof.
  intros Hrun Hstop. unfold read_running. rewrite Hstop.
  unfold stop. rewrite Hrun.
  replace (reads (log "Stopping bot..." (set_running false s)))
    with (reads s) by state_fields.
  replace (running (set_reads _ _)) with false by state_fields.
  reflexivity.
Qed.

Lemma sleep_loop_returns (n : nat) :
  forall s, exists s', sleep_loop env n s = Returns tt s' /\ disk s' = disk s.
Proof.
  induction n as [|n IH]; intros s; [now exists s|].
  cbn [sleep_loop]. unfold bind at 1.
  destruct (read_running env s) as [b s1|e s1] eqn:Hread;
    [|unfold read_running in Hread; discriminate].
  destruct (read_running_result _ _ _ Hread) as [_ Hdisk].
  destruct b; cbn [negb].
  - unfold bind, time_sleep, modify.
    destruct (IH (set_slept (slept s1 + 10) s1)) as (s' & Hloop & Hdisk').
    exists s'. split; [exact Hloop|]. now rewrite Hdisk', <- Hdisk.
  - now exists s1.
Qed.

Lemma sleep_loop_quiet (j : nat) :
  forall m s, running s = true ->
  (forall i, (i < j)%nat -> stop_request env (reads s + i) = false) ->
  sleep_loop env (j + m) s = sleep_loop env m (after_slices j s).
Proof.
  induction j as [|j IH]; intros m s Hrun Hquiet.
  - cbn [Nat.add]. f_equal. unfold after_slices, set_slept, set_reads.
    destruct s; cbn. f_equal; lia.
  - cbn [Nat.add sleep_loop]. unfold bind at 1.
    rewrite read_running_quiet; auto.
    2:{ rewrite <- (Nat.add_0_r (reads s)). apply Hquiet. lia. }
    cbn [negb]. unfold bind, time_sleep, modify.
    rewrite IH.
    + f_equal. unfold after_slices, set_slept, set_reads.
      destruct s; cbn [sites interval running thread log_callback data
                         console disk requests reads writes slept].
      f_equal; lia.
    + exact Hrun.
    + intros i Hi. cbn [reads set_slept set_reads].
      replace (S (reads s) + i)%nat with (reads s + S i)%nat by lia.
      apply Hquiet. lia.
Qed.

Lemma round_unfold (s : state) :
  round env s =
  match scrape_all_sites env (log "Starting scraping round..." s) with
  | Returns _ s2 =>
      match persist env s2 with
      | Returns _ s3 => sleep_interval env (log (sleeping_line s3) s3)
      | Raises e s3 => Raises e s3
      end
  | Raises e s2 => Raises e s2
  end.
Proof.
  unfold round, bind, modify, gets.
  destruct (scrape_all_sites env _); [|reflexivity].
  destruct (persist env _); reflexivity.
Qed.

(** After the work of a round, [run_bot] goes on from the sleep. *)
Lemma run_bot_round (fuel : nat) (s s1 s2 s3 : state) :
  read_running env s = Returns true s1 ->
  scrape_all_sites env (log "Starting scraping round..." s1)
  = Returns tt s2 ->
  persist env s2 = Returns tt s3 ->
  run_bot env (S fuel) s
  = resume_from_sleep env fuel (log (sleeping_line s3) s3).
Proof.
  intros Hread Hscrape Hpersist.
  cbn [run_bot]. rewrite Hread, round_unfold, Hscrape, Hpersist.
  unfold resume_from_sleep.
  destruct (sleep_interval env _); reflexivity.
Qed.

(** C3, amended.  A failure of persistence other than a missing file (the
    existing file cannot be opened or parsed, or the write fails) is raised
    by [save_data] and caught nowhere: [run_bot] ends with that exception
    in the round where it happens.  Nothing is logged for it, no later
    round runs, and the running flag is left as it was. *)
Theorem persist_failure_ends_cycle (fuel : nat) (s s1 s2 : state) (e : exn) :
  read_running env s = Returns true s1 ->
  scrape_all_sites env (log "Starting scraping round..." s1)
  = Returns tt s2 ->
  data s2 <> [] ->
  persist_failure env s2 = Some e ->
  exists s3, run_bot env (S fuel) s = Some (Raises e s3)
    /\ console s3 = console s2 /\ running s3 = running s2
    /\ requests s3 = requests s2 /\ reads s3 = reads s2.
Proof.
  intros Hread Hscrape Hne Hfail.
  destruct (save_data_fails env s2 e Hfail) as (s3 & Hraise & Hrest).
  exists s3. split; [|exact Hrest].
  cbn [run_bot]. rewrite Hread, round_unfold, Hscrape.
  now rewrite persist_nonempty, Hraise.
Qed.

(** C8.  The sleep between rounds is made of [interval * 6] slices of 10
    seconds, with one read of the running flag before each: when no stop
    comes, it sleeps all of them.  When [stop()] is called during slice
    [j], so that the read after [j] slices is the first to see it, the
    cycle sleeps no further slice: [run_bot] logs "Bot stopped." and
    returns after [10 * j] seconds of sleep. *)
Theorem stop_during_sleep_ends_within_slice (fuel : nat) (s : state)
    (j : nat) :
  let n := Z.to_nat (interval s * 6) in
  running s = true ->
  (forall i, (i < j)%nat -> stop_request env (reads s + i) = false) ->
  (j = n -> sleep_interval env s = Returns tt (after_slices n s))
  /\ ((j <= n)%nat ->
      stop_request env (reads s + j) = true ->
      exists s', resume_from_sleep env (S fuel) s = Some (Returns tt s')
        /\ slept s' = slept s + 10 * Z.of_nat j
        /\ running s' = false
        /\ console s'
           = console (log "Bot stopped." (log "Stopping bot..." s))).
Proof.
  intros n Hrun Hquiet.
  assert (Hfull : j = n -> sleep_interval env s = Returns tt (after_slices n s)).
  { intros ->. unfold sleep_interval, bind, gets. fold n.
    rewrite <- (Nat.add_0_r n) at 1.
    now rewrite sleep_loop_quiet. }
  split; [exact Hfull|].
  intros Hle Hstop. unfold resume_from_sleep.
  assert (Hrun' : running (after_slices j s) = true) by exact Hrun.
  assert (Hstop' : stop_request env (reads (after_slices j s)) = true)
    by exact Hstop.
  destruct (Nat.eq_dec j n) as [Heq|Hneq].
  - rewrite (Hfull Heq), <- Heq. cbn [run_bot].
    rewrite (read_running_stop _ Hrun' Hstop').
    eexists. split; [reflexivity|]. unfold after_slices.
    repeat split; state_fields.
  - unfold sleep_interval, bind, gets. fold n.
    replace n with (j + S (n - S j))%nat by lia.
    rewrite sleep_loop_quiet by assumption.
    cbn [sleep_loop]. unfold bind at 1.
    rewrite (read_running_stop _ Hrun' Hstop'). cbn [negb ret].
    cbn [run_bot]. rewrite read_running_stopped by state_fields.
    eexists. split; [reflexivity|]. unfold after_slices.
    repeat split; state_fields.
Qed.

End Cycle.

Lemma persist_failure_ends_cycle_witness :
  exists s3,
    run_bot (Sample.web 99) 7 (start (Sample.idle Denied))
    = Some (Raises PermissionError s3)
    /\ requests s3 = 4%nat /\ reads s3 = 5%nat.
Proof.
  destruct (persist_failure_ends_cycle (Sample.web 99) 6
              (start (Sample.idle Denied))
              (final_state (read_running (Sample.web 99)
                              (start (Sample.idle Denied))))
              (final_state
                 (scrape_all_sites (Sample.web 99)
                    (log "Starting scraping round..."
                       (final_state (read_running (Sample.web 99)
                                       (start (Sample.idle Denied)))))))
              PermissionError)
    as (s3 & Hrun & _ & _ & Hreq & Hreads).
  - vm_compute. reflexivity.
  - vm_compute. reflexivity.
  - vm_compute. discriminate.
  - vm_compute. reflexivity.
  - exists s3. split; [exact Hrun|]. split.
    + rewrite Hreq. vm_compute. reflexivity.
    + rewrite Hreads. vm_compute. reflexivity.
Defined.

(** C3, as stated, fails.  On a disk with no space left, the first round
    scrapes its four targets and the write of its result fails; [run_bot]
    ends there with the OSError, though no stop was requested and rounds
    were left to run.  The log holds no line about the failure, and the
    running flag is still set. *)
Lemma disk_full_ends_cycle :
  exists s',
    run_bot (Sample.web_disk_full 99) 5 (start (Sample.idle Missing))
    = Some (Raises (OSError "[Errno 28] No space left on device") s')
    /\ running s' = true
    /\ requests s' = 4%nat
    /\ reads s' = 5%nat
    /\ console s'
       = ["Bot started."; "Starting scraping round...";
          "Scraping http://a ..."; "Price found: 19.99";
          "Scraping http://b ...";
          "Error scraping http://b: 404 Client Error: Not Found for url: http://b/";
          "Scraping http://c ..."; "Price found: $12.99";
          "Scraping http://d ...";
          "Error scraping http://d: connection refused"].
Proof.
  destruct (run_bot (Sample.web_disk_full 99) 5 (start (Sample.idle Missing)))
    as [[[] s'|e s']|] eqn:Hrun; vm_compute in Hrun; try discriminate.
  injection Hrun as <- <-.
  eexists. split; [reflexivity|]. repeat split.
Qed.

Lemma stop_during_sleep_ends_within_slice_witness :
  let s := start (Sample.idle Missing) in
  sleep_interval (Sample.web 99) s = Returns tt (after_slices 6 s)
  /\ exists s', resume_from_sleep (Sample.web 3) 1 s = Some (Returns tt s')
                /\ slept s' = 30 /\ running s' = false.
Proof.
  intros s. split.
  - apply (stop_during_sleep_ends_within_slice (Sample.web 99) 0 s 6).
    + reflexivity.
    + intros i Hi. cbn. apply Nat.eqb_neq. lia.
    + reflexivity.
  - destruct (stop_during_sleep_ends_within_slice (Sample.web 3) 0 s 3)
      as [_ H].
    + reflexivity.
    + intros i Hi. cbn. apply Nat.eqb_neq. lia.
    + destruct H as (s' & Hret & Hslept & Hrun & _).
      * cbn. lia.
      * reflexivity.
      * exists s'. split; [exact Hret|]. split; [|exact Hrun].
        rewrite Hslept. reflexivity.
Defined.

(** ** The buffer of a round *)

Section Ledger.

Variable env : Env.

Lemma round_file (s1 s2 : state) :
  running s1 = true ->
  round env s1 = Returns tt s2 ->
  disk s2 = file_after_save (disk s1)
              (collect env (requests s1) (reads s1) (sites s1)).
Proof.
  intros Hrun Hround. rewrite round_unfold in Hround.
  rewrite scrape_all_sites_unfold in Hround.
  destruct (scrape_loop_collect env
              (sites (log "Starting scraping round..." s1))
              (set_data [] (log "Starting scraping round..." s1)))
    as (sa & Hloop & Hdata & Hdisk).
  { state_fields. }
  rewrite Hloop in Hround.
  destruct (persist env sa) as [[] sb|e sb] eqn:Hpersist; [|discriminate].
  destruct (sleep_loop_returns env
              (Z.to_nat (interval (log (sleeping_line sb) sb) * 6))
              (log (sleeping_line sb) sb))
    as (sc & Hsleep & Hdisk').
  unfold sleep_interval, bind, gets in Hround. rewrite Hsleep in Hround.
  injection Hround as <-. rewrite Hdisk'.
  replace (disk (log (sleeping_line sb) sb)) with (disk sb) by state_fields.
  rewrite (persist_file env sa sb Hpersist), Hdisk.
  replace (disk (set_data [] (log "Starting scraping round..." s1)))
    with (disk s1) by state_fields.
  f_equal. rewrite Hdata. clear. state_fields.
Qed.

Lemma rounds_file (fuel : nat) :
  forall s s' : state,
  (after_rounds env fuel s = Some s' ->
   disk s' = fold_left file_after_save (round_results env fuel s) (disk s))
  /\ (run_bot env fuel s = Some (Returns tt s') ->
      disk s' = fold_left file_after_save (round_results env fuel s)
                  (disk s)).
Proof.
  induction fuel as [|fuel IH]; intros s s'.
  - split; [|discriminate]. cbn. now intros [= <-].
  - cbn [after_rounds run_bot round_results].
    destruct (read_running env s) as [b s1|e s1] eqn:Hread;
      [|split; discriminate].
    destruct (read_running_result env _ _ _ Hread) as [Hb Hdisk].
    destruct b.
    + destruct (round env s1) as [[] s2|e s2] eqn:Hround;
        [|split; discriminate].
      cbn [fold_left]. rewrite <- Hdisk, <- (round_file s1 s2 Hb Hround).
      apply IH.
    + split; [discriminate|].
      intros [= <-]. cbn [fold_left].
      replace (disk (log "Bot stopped." s1)) with (disk s1) by state_fields.
      exact Hdisk.
Qed.

End Ledger.




(** ** Extraction: further properties *)

Lemma rstrip_keeps_start (s : string) :
  starts_with_space s = false -> starts_with_space (Py.rstrip s) = false.
Proof.
  destruct s as [|c s]; [reflexivity|]. cbn [starts_with_space Py.rstrip].
  intros Hc. destruct (Py.rstrip s); [rewrite Hc|]; cbn; auto.
Qed.

Lemma lstrip_start (s : string) : starts_with_space (Py.lstrip s) = false.
Proof.
  induction s as [|c s IH]; [reflexivity|]. cbn [Py.lstrip].
  destruct (Py.is_space c) eqn:Hc; [exact IH|]. exact Hc.
Qed.

Lemma rstrip_end (s : string) : ends_with_space (Py.rstrip s) = false.
Proof.
  induction s as [|c s IH]; [reflexivity|]. cbn [Py.rstrip].
  destruct (Py.rstrip s) as [|d r] eqn:Hr.
  - destruct (Py.is_space c) eqn:Hc; [reflexivity|]. cbn. exact Hc.
  - cbn [ends_with_space] in *. exact IH.
Qed.

Lemma strip_trimmed (s : string) :
  starts_with_space (Py.strip s) = false
  /\ ends_with_space (Py.strip s) = false.
Proof.
  unfold Py.strip. split; [|apply rstrip_end].
  apply rstrip_keeps_start, lstrip_start.
Qed.

Lemma starts_app (a b : string) :
  a <> "" -> starts_with_space (a ++ b) = starts_with_space a.
Proof. destruct a; [contradiction|reflexivity]. Qed.

Lemma ends_app (a b : string) :
  b <> "" -> ends_with_space (a ++ b) = ends_with_space b.
Proof.
  intros Hb. induction a as [|c a IH]; [reflexivity|].
  cbn [String.append ends_with_space].
  destruct (a ++ b) eqn:Hab; [|exact IH].
  destruct a, b; try discriminate. contradiction.
Qed.

Lemma join_trimmed (parts : list string) :
  Forall (fun p => p <> "" /\ starts_with_space p = false
                   /\ ends_with_space p = false) parts ->
  starts_with_space (Py.join "" parts) = false
  /\ ends_with_space (Py.join "" parts) = false
  /\ (parts <> [] -> Py.join "" parts <> "").
Proof.
  induction 1 as [|p rest (Hne & Hs & He) Hrest IH]; [now repeat split|].
  cbn [Py.join]. destruct rest as [|q rest].
  - repeat split; auto.
  - destruct IH as (IHs & IHe & IHne).
    change ("" ++ Py.join "" (q :: rest)) with (Py.join "" (q :: rest)).
    assert (Hj : Py.join "" (q :: rest) <> "") by (apply IHne; discriminate).
    rewrite starts_app, ends_app by assumption.
    repeat split; auto.
    destruct p; [contradiction|discriminate].
Qed.

Lemma get_text_trimmed (t : Soup.node) :
  starts_with_space (Soup.get_text true t) = false
  /\ ends_with_space (Soup.get_text true t) = false.
Proof.
  unfold Soup.get_text, Soup.all_strings.
  assert (H : Forall (fun p => p <> "" /\ starts_with_space p = false
                               /\ ends_with_space p = false)
                (flat_map
                   (fun d =>
                      match d with
                      | Soup.NavigableString s =>
                          let s' := Py.strip s in
                          if (s' =? "")%string then [] else [s']
                      | _ => []
                      end) (Soup.descendants t))).
  { induction (Soup.descendants t) as [|d ds IH]; cbn [flat_map];
      [constructor|].
    apply Forall_app. split; [|exact IH].
    destruct d as [s|s|name attrs cs]; try constructor.
    cbv zeta. destruct (String.eqb_spec (Py.strip s) ""); constructor;
      [|constructor].
    destruct (strip_trimmed s). now repeat split. }
  destruct (join_trimmed _ H) as (Hs & He & _). now split.
Qed.

Lemma try_selectors_trimmed (env : Env) (doc : Soup.soup)
    (sels : list string) (p : string) :
  try_selectors env doc sels = inr p ->
  starts_with_space p = false /\ ends_with_space p = false.
Proof.
  induction sels as [|sel sels IH]; cbn [try_selectors]; [discriminate|].
  destruct (select_one env doc sel); try discriminate; auto.
  intros [= <-]. apply get_text_trimmed.
Qed.

Lemma extract_trimmed (env : Env) (doc : Soup.soup)
    (selector : option string) (p : string) :
  extract env doc selector = inr p ->
  starts_with_space p = false /\ ends_with_space p = false.
Proof.
  destruct selector as [sel|]; cbn [extract];
    [|apply try_selectors_trimmed].
  destruct (Py.truthy sel); [|apply try_selectors_trimmed].
  destruct (select_one env doc sel); try discriminate.
  intros [= <-]. apply get_text_trimmed.
Qed.

(** X1.  A price that [get_price_from_url] returns neither starts nor
    ends with whitespace, whatever the page and the selector. *)
Theorem returned_price_is_trimmed (env : Env) (u : string)
    (selector : option string) (s s' : state) (p : string) :
  get_price_from_url env u selector s = Returns p s' ->
  starts_with_space p = false /\ ends_with_space p = false.
Proof.
  rewrite get_price_from_url_outcome. unfold outcome_of. cbn [fst snd].
  destruct (http_get env (requests s) u) as [detail|r]; [discriminate|].
  destruct (status_error r); [discriminate|].
  destruct (extract env (body r) selector) as [e|q] eqn:Hext;
    [discriminate|].
  intros [= <- _]. exact (extract_trimmed _ _ _ _ Hext).
Qed.

Lemma returned_price_is_trimmed_witness :
  get_price_from_url (Sample.web 0) "http://c" (Some ".price")
    (Sample.idle Missing)
  = Returns "$12.99" (set_requests 1 (Sample.idle Missing))
  /\ starts_with_space "$12.99" = false /\ ends_with_space "$12.99" = false.
Proof.
  split; [reflexivity|].
  apply (returned_price_is_trimmed (Sample.web 0) "http://c" (Some ".price")
           (Sample.idle Missing) (set_requests 1 (Sample.idle Missing))).
  reflexivity.
Defined.

Lemma prefix_app (a b : string) : String.prefix a (a ++ b) = true.
Proof.
  induction a as [|c a IH]; [now destruct b|]. cbn.
  destruct (ascii_dec c c); [exact IH|contradiction].
Qed.

Lemma prefix_refl (a : string) : String.prefix a a = true.
Proof.
  induction a as [|c a IH]; [reflexivity|]. cbn.
  destruct (ascii_dec c c); [exact IH|contradiction].
Qed.

Lemma contains_prefix (n h : string) :
  String.prefix n h = true -> Py.contains n h = true.
Proof. intros H. destruct h; cbn [Py.contains]; now rewrite H. Qed.

Lemma contains_cons (n h : string) (c : ascii) :
  Py.contains n h = true -> Py.contains n (String c h) = true.
Proof. intros H. cbn [Py.contains]. rewrite H. apply orb_true_r. Qed.

Lemma contains_app_l (n p h : string) :
  Py.contains n h = true -> Py.contains n (p ++ h) = true.
Proof.
  intros H. induction p as [|c p IH]; [exact H|].
  cbn [String.append]. now apply contains_cons.
Qed.

Lemma mem_join (c : string) (l : list string) :
  Soup.mem c l = true -> Py.contains c (Py.join " " l) = true.
Proof.
  unfold Soup.mem. induction l as [|p rest IH]; [discriminate|].
  cbn [existsb]. intros H. apply orb_true_iff in H.
  destruct H as [Heq|Hin].
  - apply String.eqb_eq in Heq. subst p. apply contains_prefix.
    destruct rest; cbn [Py.join]; [apply prefix_refl|apply prefix_app].
  - destruct rest as [|q rest]; [discriminate|].
    change (Py.join " " (p :: q :: rest))
      with (p ++ " " ++ Py.join " " (q :: rest)).
    apply contains_app_l, contains_app_l, IH, Hin.
Qed.

Lemma class_sel_contains (c : string) (t : Soup.node) :
  Soup.matches (Soup.ClassSel c) t = true ->
  Soup.matches (Soup.ClassContains c) t = true.
Proof.
  destruct t as [s|s|name attrs cs]; cbn [Soup.matches]; try discriminate.
  intros H. unfold Soup.classes in *.
  destruct (Soup.get_attr "class" attrs); [|discriminate].
  now apply mem_join.
Qed.

Lemma id_sel_contains (i : string) (t : Soup.node) :
  Soup.matches (Soup.IdSel i) t = true ->
  Soup.matches (Soup.IdContains i) t = true.
Proof.
  destruct t as [s|s|name attrs cs]; cbn [Soup.matches]; try discriminate.
  destruct (Soup.get_attr "id" attrs) as [v|]; [|discriminate].
  intros H. apply String.eqb_eq in H. subst v.
  apply contains_prefix, prefix_refl.
Qed.

Lemma first_default_marker (doc : Soup.soup) :
  match first_default doc default_queries with
  | Some _ => has_price_marker doc = true
  | None => has_price_marker doc = false
  end.
Proof.
  unfold has_price_marker, default_queries. cbn [first_default].
  set (l := flat_map Soup.subtree doc).
  assert (Hyes : forall q t,
             (forall x, Soup.matches q x = true ->
                        Soup.matches (Soup.ClassContains "price") x
                        || Soup.matches (Soup.IdContains "price") x = true) ->
             find (Soup.matches q) l = Some t ->
             existsb (fun x => Soup.matches (Soup.ClassContains "price") x
                               || Soup.matches (Soup.IdContains "price") x) l
             = true).
  { intros q t Himp Hfind. apply find_some in Hfind as [Hin Hm].
    apply existsb_exists. exists t. split; [exact Hin|now apply Himp]. }
  destruct (find (Soup.matches (Soup.ClassSel "price")) l) eqn:H1.
  { eapply Hyes; [|exact H1]. intros x Hx.
    now rewrite (class_sel_contains _ _ Hx). }
  destruct (find (Soup.matches (Soup.IdSel "price")) l) eqn:H2.
  { eapply Hyes; [|exact H2]. intros x Hx.
    rewrite (id_sel_contains _ _ Hx). apply orb_true_r. }
  destruct (find (Soup.matches (Soup.ClassContains "price")) l) eqn:H3.
  { eapply Hyes; [|exact H3]. intros x Hx. now rewrite Hx. }
  destruct (find (Soup.matches (Soup.IdContains "price")) l) eqn:H4.
  { eapply Hyes; [|exact H4]. intros x Hx. rewrite Hx. apply orb_true_r. }
  destruct (existsb _ l) eqn:Hex; [|reflexivity].
  apply existsb_exists in Hex as (x & Hin & Hx).
  rewrite (find_none _ _ H3 x Hin), (find_none _ _ H4 x Hin) in Hx.
  discriminate.
Qed.

(** X2.  Without a selector, extraction fails with the default not-found
    error exactly when no tag of the page has "price" inside its class or
    inside its id; when some tag has, it returns a price. *)
Theorem default_extraction_fails_iff_no_marker (env : Env)
    (doc : Soup.soup) :
  (has_price_marker doc = false <->
   extract env doc None = inl not_found_default)
  /\ (has_price_marker doc = true <->
      exists p, extract env doc None = inr p).
Proof.
  cbn [extract].
  rewrite (try_selectors_simple env doc _ _ parse_common_selectors).
  pose proof (first_default_marker doc) as H.
  destruct (first_default doc default_queries) as [t|]; rewrite H.
  - split; split; try discriminate.
    + intros _. now eexists.
    + reflexivity.
  - split; split; try discriminate; try reflexivity.
    intros [p Hp]. discriminate.
Qed.

(** ** Fetching: further properties *)

(** X3.  [get_price_from_url] makes exactly one request and changes
    nothing else.  A transport failure is raised as it is; a response with
    a status from 400 to 599 raises HTTPError whatever its body holds; a
    response with any other status goes on to extraction from its body. *)
Theorem get_price_from_url_one_request (env : Env) (u : string)
    (selector : option string) (s : state) :
  final_state (get_price_from_url env u selector s)
  = set_requests (S (requests s)) s
  /\ (forall detail, http_get env (requests s) u = inl detail ->
        raised (get_price_from_url env u selector s)
        = Some (RequestException detail))
  /\ (forall r, http_get env (requests s) u = inr r ->
        400 <= status_code r < 600 ->
        exists detail,
          raised (get_price_from_url env u selector s)
          = Some (HTTPError (status_code r) detail))
  /\ (forall r, http_get env (requests s) u = inr r ->
        status_code r < 400 \/ 600 <= status_code r ->
        get_price_from_url env u selector s
        = lift (extract env (body r) selector)
            (set_requests (S (requests s)) s)).
Proof.
  rewrite get_price_from_url_outcome. unfold outcome_of. cbn [fst snd].
  split.
  { destruct (http_get env (requests s) u) as [d|r]; [reflexivity|].
    destruct (status_error r); [reflexivity|].
    destruct (extract env (body r) selector); reflexivity. }
  split; [intros d ->; reflexivity|].
  split; intros r -> Hstatus; unfold status_error; cbv zeta.
  - destruct (Z.leb_spec 400 (status_code r)); [|lia].
    destruct (Z.ltb_spec (status_code r) 500); cbn [andb].
    + now eexists.
    + destruct (Z.leb_spec 500 (status_code r)); [|lia].
      destruct (Z.ltb_spec (status_code r) 600); [|lia].
      now eexists.
  - assert (H4 : (400 <=? status_code r) && (status_code r <? 500) = false).
    { apply andb_false_iff.
      destruct Hstatus; [left; apply Z.leb_gt|right; apply Z.ltb_ge]; lia. }
    assert (H5 : (500 <=? status_code r) && (status_code r <? 600) = false).
    { apply andb_false_iff.
      destruct Hstatus; [left; apply Z.leb_gt|right; apply Z.ltb_ge]; lia. }
    rewrite H4, H5.
    destruct (extract env (body r) selector); reflexivity.
Qed.

Lemma get_price_from_url_one_request_witness :
  (exists detail,
     raised (get_price_from_url (Sample.web 0) "http://b" None
               (Sample.idle Missing))
     = Some (HTTPError 404 detail))
  /\ get_price_from_url (Sample.web 0) "http://a" None (Sample.idle Missing)
     = Returns "19.99" (set_requests 1 (Sample.idle Missing)).
Proof.
  destruct (get_price_from_url_one_request (Sample.web 0) "http://b" None
              (Sample.idle Missing)) as (_ & _ & Herr & _).
  destruct (get_price_from_url_one_request (Sample.web 0) "http://a" None
              (Sample.idle Missing)) as (_ & _ & _ & Hok).
  split.
  - apply (Herr (mkResponse 404 "Not Found" "http://b/" []) eq_refl).
    cbn. lia.
  - rewrite (Hok (mkResponse 200 "OK" "http://a/" [Sample.div_id_price])
               eq_refl).
    + reflexivity.
    + left. cbn. lia.
Defined.

(** ** Rounds: further properties *)

Lemma same_config_refl (s : state) : same_config s s.
Proof. unfold same_config. now repeat split. Qed.

Lemma same_config_trans (s1 s2 s3 : state) :
  same_config s1 s2 -> same_config s2 s3 -> same_config s1 s3.
Proof.
  unfold same_config.
  intros (Ha & Hb & Hc & Hd & He) (Ha' & Hb' & Hc' & Hd' & He').
  repeat split; try congruence.
  intros Hoff. rewrite He', He; congruence.
Qed.

Lemma same_store_refl (s : state) : same_store s s.
Proof. unfold same_store. now repeat split. Qed.

Lemma same_store_trans (s1 s2 s3 : state) :
  same_store s1 s2 -> same_store s2 s3 -> same_store s1 s3.
Proof.
  unfold same_store. intros (Ha & Hb & Hc) (Ha' & Hb' & Hc').
  repeat split; congruence.
Qed.

Ltac frame :=
  unfold same_config, same_store; repeat split; try intros ?;
  state_fields.

Lemma log_frame (m : string) (s : state) :
  same_config s (log m s) /\ same_store s (log m s).
Proof. frame. Qed.

Lemma stop_frame (s : state) :
  same_config s (stop s) /\ same_store s (stop s).
Proof. unfold stop. destruct (running s); frame. Qed.

Section MoreRounds.

Variable env : Env.

Lemma after_target_frame (t : Target) (s : state) :
  same_config s (after_target env t s)
  /\ same_store s (after_target env t s).
Proof. unfold after_target. destruct (outcome_of _ _ _); frame. Qed.

Lemma scrape_loop_idle_state (t : Target) (rest : list Target)
    (s : state) :
  running s = false ->
  scrape_loop env (t :: rest) s = Returns tt (set_reads (S (reads s)) s).
Proof.
  intros Hidle. destruct t as [u sel].
  cbn [scrape_loop]. unfold bind, read_running.
  rewrite (stop_idle s Hidle).
  destruct (stop_request env (reads s)); cbn [running set_reads];
    now rewrite Hidle.
Qed.

Lemma scrape_loop_frame (targets : list Target) :
  forall s, exists s',
    scrape_loop env targets s = Returns tt s'
    /\ same_config s s' /\ same_store s s'.
Proof.
  induction targets as [|t rest IH]; intros s.
  - exists s. split; [reflexivity|].
    split; [apply same_config_refl|apply same_store_refl].
  - destruct (running s) eqn:Hrun.
    + destruct (stop_request env (reads s)) eqn:Hstop.
      * rewrite (scrape_loop_stopped env _ _ _ Hstop).
        eexists. split; [reflexivity|].
        unfold stop. rewrite Hrun. frame.
      * rewrite (scrape_loop_step env _ _ _ Hrun Hstop).
        destruct (IH (after_target env t s)) as (s' & Hloop & Hc & Hs).
        destruct (after_target_frame t s) as [Hc' Hs'].
        exists s'. split; [exact Hloop|]. split.
        -- exact (same_config_trans _ _ _ Hc' Hc).
        -- exact (same_store_trans _ _ _ Hs' Hs).
    + rewrite (scrape_loop_idle_state _ _ _ Hrun).
      eexists. split; [reflexivity|]. frame.
Qed.

Lemma scrape_loop_stop_at (j : nat) :
  forall targets s, running s = true ->
  (j < List.length targets)%nat ->
  (forall i, (i < j)%nat -> stop_request env (reads s + i) = false) ->
  stop_request env (reads s + j) = true ->
  exists s', scrape_loop env targets s = Returns tt s'
    /\ data s' = (data s
                  ++ round_result env (requests s) (firstn j targets))%list
    /\ requests s' = (requests s + j)%nat
    /\ running s' = false.
Proof.
  induction j as [|j IH]; intros [|t rest] s Hrun Hlen Hquiet Hstop;
    cbn [List.length] in Hlen; try lia.
  - rewrite Nat.add_0_r in Hstop.
    rewrite (scrape_loop_stopped env _ _ _ Hstop).
    eexists. split; [reflexivity|]. cbn [firstn round_result].
    rewrite app_nil_r, Nat.add_0_r. unfold stop. rewrite Hrun.
    repeat split; state_fields.
  - assert (Hq0 : stop_request env (reads s) = false).
    { rewrite <- (Nat.add_0_r (reads s)). apply Hquiet. lia. }
    rewrite (scrape_loop_step env _ _ _ Hrun Hq0).
    destruct (IH rest (after_target env t s))
      as (s' & Hloop & Hdata & Hreq & Hidle).
    + now rewrite after_target_running.
    + lia.
    + intros i Hi. rewrite after_target_reads.
      replace (S (reads s) + i)%nat with (reads s + S i)%nat by lia.
      apply Hquiet. lia.
    + rewrite after_target_reads.
      now replace (S (reads s) + j)%nat with (reads s + S j)%nat by lia.
    + exists s'. split; [exact Hloop|].
      rewrite Hdata, Hreq, after_target_data, after_target_requests.
      cbn [firstn round_result]. rewrite <- app_assoc.
      repeat split; auto; lia.
Qed.

(** X4.  When the read of the running flag before target number [j]
    (counting from 0) is the first to see a stop, the round ends there: its
    result is the result over the first [j] targets, no request is made
    for the others, and the flag is left cleared. *)
Theorem stop_ends_round_at_target (s : state) (j : nat) :
  running s = true ->
  (j < List.length (sites s))%nat ->
  (forall i, (i < j)%nat -> stop_request env (reads s + i) = false) ->
  stop_request env (reads s + j) = true ->
  exists s', scrape_all_sites env s = Returns tt s'
    /\ data s' = round_result env (requests s) (firstn j (sites s))
    /\ requests s' = (requests s + j)%nat
    /\ running s' = false.
Proof.
  intros Hrun Hlen Hquiet Hstop. rewrite scrape_all_sites_unfold.
  destruct (scrape_loop_stop_at j (sites s) (set_data [] s)
              Hrun Hlen Hquiet Hstop)
    as (s' & Hloop & Hdata & Hreq & Hidle).
  exists s'. now repeat split.
Qed.

(** X5.  On a bot that is not running, [scrape_all_sites] still empties
    the buffer, and does nothing else: no request, no log line, no access
    to the file. *)
Theorem idle_round_only_clears_buffer (s : state) :
  running s = false ->
  exists s', scrape_all_sites env s = Returns tt s'
    /\ data s' = []
    /\ requests s' = requests s
    /\ console s' = console s
    /\ running s' = false
    /\ same_store s s'.
Proof.
  intros Hidle. rewrite scrape_all_sites_unfold.
  destruct (sites s) as [|t rest].
  - eexists. split; [reflexivity|]. repeat split; auto.
  - rewrite scrape_loop_idle_state by exact Hidle.
    eexists. split; [reflexivity|]. repeat split; auto.
Qed.

(** X6.  [scrape_all_sites] never touches the dataset file, never sleeps,
    and never changes the targets, the interval, the thread or the
    callback; when no callback is installed it logs nothing. *)
Theorem round_keeps_config_and_file (s : state) :
  exists s', scrape_all_sites env s = Returns tt s'
    /\ same_config s s' /\ same_store s s'.
Proof.
  rewrite scrape_all_sites_unfold.
  destruct (scrape_loop_frame (sites s) (set_data [] s))
    as (s' & Hloop & Hc & Hs).
  exists s'. split; [exact Hloop|]. split.
  - refine (same_config_trans _ _ _ _ Hc). frame.
  - refine (same_store_trans _ _ _ _ Hs). frame.
Qed.

Lemma collect_length (k r : nat) (targets : list Target) :
  (List.length (collect env k r targets) <= List.length targets)%nat.
Proof.
  revert k r. induction targets as [|t rest IH]; intros k r;
    cbn [collect List.length]; [lia|].
  destruct (stop_request env r); cbn [List.length]; [lia|].
  rewrite length_app. specialize (IH (S k) (S r)).
  unfold target_obs. destruct (outcome_of env k t); cbn [List.length]; lia.
Qed.

Lemma collect_origin (k r : nat) (targets : list Target)
    (o : Observation) :
  In o (collect env k r targets) ->
  In (url o) (map fst targets)
  /\ starts_with_space (price o) = false
  /\ ends_with_space (price o) = false.
Proof.
  revert k r. induction targets as [|t rest IH]; intros k r;
    cbn [collect map]; [contradiction|].
  destruct (stop_request env r); [contradiction|].
  intros Hin. apply in_app_or in Hin. destruct Hin as [Hin|Hin].
  - unfold target_obs, outcome_of in Hin.
    destruct (http_get env k (fst t)) as [d|resp]; [contradiction|].
    destruct (status_error resp); [contradiction|].
    destruct (extract env (body resp) (snd t)) as [e|p] eqn:Hext;
      [contradiction|].
    destruct Hin as [<-|[]]. cbn [url price].
    split; [now left|]. exact (extract_trimmed _ _ _ _ Hext).
  - destruct (IH _ _ Hin) as (Hu & Hp). split; [now right|exact Hp].
Qed.

(** X7.  A round result has at most one observation per target; each of
    its observations carries the url of a target, and a price that neither
    starts nor ends with whitespace. *)
Theorem round_result_within_targets (s s' : state) :
  scrape_all_sites env s = Returns tt s' ->
  (List.length (data s') <= List.length (sites s))%nat
  /\ (forall o, In o (data s') ->
        In (url o) (map fst (sites s))
        /\ starts_with_space (price o) = false
        /\ ends_with_space (price o) = false).
Proof.
  rewrite scrape_all_sites_unfold. intros Hret.
  destruct (running s) eqn:Hrun.
  - destruct (scrape_loop_collect env (sites s) (set_data [] s) Hrun)
      as (s1 & Hloop & Hdata & _).
    rewrite Hloop in Hret. injection Hret as <-.
    rewrite Hdata. cbn [data set_data app]. split.
    + apply collect_length.
    + intros o. apply collect_origin.
  - destruct (scrape_loop_idle env (sites s) (set_data [] s) Hrun)
      as (s1 & Hloop & _ & Hdata).
    rewrite Hloop in Hret. injection Hret as <-.
    rewrite Hdata. cbn [data set_data List.length]. split; [lia|].
    intros o [].
Qed.

End MoreRounds.

Lemma stop_ends_round_at_target_witness :
  exists s',
    scrape_all_sites (Sample.web 2) (start (Sample.idle Missing))
    = Returns tt s'
    /\ data s' = [Sample.obs1] /\ requests s' = 2%nat.
Proof.
  destruct (stop_ends_round_at_target (Sample.web 2)
              (start (Sample.idle Missing)) 2)
    as (s' & Hret & Hdata & Hreq & _).
  - reflexivity.
  - cbn. lia.
  - intros i Hi. cbn. apply Nat.eqb_neq. lia.
  - reflexivity.
  - exists s'. split; [exact Hret|]. split.
    + rewrite Hdata. vm_compute. reflexivity.
    + rewrite Hreq. reflexivity.
Defined.

Lemma idle_round_only_clears_buffer_witness :
  exists s',
    scrape_all_sites (Sample.web 0)
      (set_data [Sample.obs1] (Sample.idle Missing))
    = Returns tt s'
    /\ data s' = [] /\ requests s' = 0%nat.
Proof.
  destruct (idle_round_only_clears_buffer (Sample.web 0)
              (set_data [Sample.obs1] (Sample.idle Missing)) eq_refl)
    as (s' & Hret & Hdata & Hreq & _).
  exists s'. split; [exact Hret|]. split; [exact Hdata|].
  rewrite Hreq. reflexivity.
Defined.

Lemma round_result_within_targets_witness :
  let s := start (Sample.idle Missing) in
  exists s', scrape_all_sites (Sample.web 99) s = Returns tt s'
    /\ (List.length (data s') <= 4)%nat.
Proof.
  intros s.
  destruct (scrape_all_sites (Sample.web 99) s) as [[] s'|e s'] eqn:Hret;
    [|vm_compute in Hret; discriminate].
  exists s'. split; [reflexivity|].
  exact (proj1 (round_result_within_targets (Sample.web 99) s s' Hret)).
Defined.

(** ** Persistence: further properties *)

Section MorePersistence.

Variable env : Env.

(** X8.  When the existing file cannot be opened or parsed, [save_data]
    raises before it writes anything: the file is left as it is, no write
    is attempted and nothing is logged. *)
Theorem unreadable_file_is_not_overwritten (s : state) :
  disk s = Denied \/ disk s = Blank \/ (exists d, disk s = Garbled d) ->
  exists e, save_data env s = Raises e s
            /\ is_FileNotFoundError e = false.
Proof.
  unfold save_data, bind, gets, try_except, read_csv.
  intros [H|[H|[d H]]]; rewrite H; cbn [is_FileNotFoundError];
    eexists; split; reflexivity.
Qed.

(** X10.  When [save_data] returns it has written the file once and
    logged "Data saved to scraped_prices.csv"; when it raises it has logged
    nothing.  Either way the buffer and the configuration are as before. *)
Theorem save_data_effects (s : state) :
  match save_data env s with
  | Returns _ s' =>
      writes s' = S (writes s)
      /\ console s' = console (log "Data saved to scraped_prices.csv" s)
      /\ data s' = data s /\ same_config s s'
  | Raises _ s' =>
      console s' = console s /\ data s' = data s /\ same_config s s'
  end.
Proof.
  unfold save_data, bind, gets, try_except, read_csv, to_csv, modify, ret.
  destruct (disk s); cbn [is_FileNotFoundError];
    try (split; [|split]; [reflexivity|reflexivity|apply same_config_refl]).
  all: destruct (write_fault env (writes s)) as [[e remains]|];
    repeat split; try intros ?; state_fields.
Qed.

End MorePersistence.

Lemma unreadable_file_is_not_overwritten_witness :
  let s := set_data [Sample.obs1] (Sample.idle (Garbled "not a csv")) in
  exists e, save_data (Sample.web 0) s = Raises e s.
Proof.
  intros s.
  destruct (unreadable_file_is_not_overwritten (Sample.web 0) s)
    as (e & He & _).
  - right. right. now exists "not a csv".
  - now exists e.
Defined.

(** ** The cycle: further properties *)

Section MoreCycle.

Variable env : Env.

Lemma read_running_frame (s : state) :
  exists b s1, read_running env s = Returns b s1
               /\ same_config s s1 /\ same_store s s1.
Proof.
  unfold read_running. do 2 eexists. split; [reflexivity|].
  destruct (stop_frame s) as [Hc Hs].
  destruct (stop_request env (reads s)).
  - split.
    + refine (same_config_trans _ _ _ Hc _). frame.
    + refine (same_store_trans _ _ _ Hs _). frame.
  - frame.
Qed.

Lemma persist_frame (s : state) :
  same_config s (final_state (persist env s))
  /\ running (final_state (persist env s)) = running s
  /\ slept (final_state (persist env s)) = slept s
  /\ requests (final_state (persist env s)) = requests s
  /\ reads (final_state (persist env s)) = reads s.
Proof.
  unfold persist, bind, gets. destruct (data s) as [|o records].
  - unfold modify. cbn [final_state]. frame.
  - unfold save_data, bind, gets, try_except, read_csv, to_csv, modify, ret.
    destruct (disk s); cbn [is_FileNotFoundError final_state];
      try (split; [apply same_config_refl|now repeat split]).
    all: destruct (write_fault env (writes s)) as [[e remains]|];
      cbn [final_state]; frame.
Qed.

Lemma sleep_loop_frame (n : nat) :
  forall s, exists s', sleep_loop env n s = Returns tt s'
    /\ same_config s s' /\ disk s' = disk s /\ writes s' = writes s
    /\ requests s' = requests s.
Proof.
  induction n as [|n IH]; intros s.
  - exists s. split; [reflexivity|].
    split; [apply same_config_refl|now repeat split].
  - cbn [sleep_loop]. unfold bind at 1.
    destruct (read_running_frame s) as (b & s1 & Hread & Hc & Hs).
    rewrite Hread. destruct Hs as (Hdisk & Hwrites & _).
    assert (Hreq : requests s1 = requests s).
    { unfold read_running in Hread. injection Hread as _ <-.
      unfold stop. destruct (stop_request env (reads s)), (running s);
        state_fields. }
    destruct b; cbn [negb].
    + unfold bind, time_sleep, modify.
      destruct (IH (set_slept (slept s1 + 10) s1))
        as (s' & Hloop & Hc' & Hdisk' & Hwrites' & Hreq').
      exists s'. split; [exact Hloop|]. split.
      * refine (same_config_trans _ _ _ Hc _).
        refine (same_config_trans _ _ _ _ Hc'). frame.
      * cbn [disk writes requests set_slept] in *.
        repeat split; congruence.
    + exists s1. split; [reflexivity|].
      split; [exact Hc|now repeat split].
Qed.

Lemma sleep_interval_idle (s : state) :
  running s = false ->
  exists s', sleep_interval env s = Returns tt s'
    /\ slept s' = slept s /\ running s' = false /\ disk s' = disk s
    /\ requests s' = requests s.
Proof.
  intros Hidle. unfold sleep_interval, bind, gets.
  destruct (Z.to_nat (interval s * 6)) as [|n].
  - exists s. now repeat split.
  - cbn [sleep_loop]. unfold bind.
    rewrite (read_running_stopped env s Hidle). cbn [negb].
    eexists. split; [reflexivity|]. now repeat split.
Qed.

Lemma round_config (s : state) :
  same_config s (final_state (round env s)).
Proof.
  rewrite round_unfold.
  destruct (scrape_loop_frame env
              (sites (log "Starting scraping round..." s))
              (set_data [] (log "Starting scraping round..." s)))
    as (s2 & Hloop & Hc2 & _).
  rewrite scrape_all_sites_unfold, Hloop.
  assert (H02 : same_config s s2).
  { refine (same_config_trans _ _ _ _ Hc2). frame. }
  destruct (persist_frame s2) as (Hc3 & _).
  destruct (persist env s2) as [[] s3|e s3]; cbn [final_state] in *.
  - destruct (sleep_loop_frame
                (Z.to_nat (interval (log (sleeping_line s3) s3) * 6))
                (log (sleeping_line s3) s3)) as (s4 & Hsleep & Hc4 & _).
    unfold sleep_interval, bind, gets. rewrite Hsleep. cbn [final_state].
    refine (same_config_trans _ _ _ H02 _).
    refine (same_config_trans _ _ _ Hc3 _).
    refine (same_config_trans _ _ _ _ Hc4). frame.
  - exact (same_config_trans _ _ _ H02 Hc3).
Qed.

(** X11.  [run_bot] returns normally only once it has seen the running
    flag cleared: the flag is then cleared, and the line "Bot stopped." is
    the last that the callback received. *)
Theorem run_bot_returns_stopped (fuel : nat) :
  forall s s', run_bot env fuel s = Some (Returns tt s') ->
  running s' = false
  /\ (log_callback s' = true ->
      exists earlier, console s' = (earlier ++ ["Bot stopped."])%list).
Proof.
  induction fuel as [|fuel IH]; intros s s'; cbn [run_bot];
    [discriminate|].
  destruct (read_running env s) as [b s1|e s1] eqn:Hread; [|discriminate].
  destruct (read_running_result env _ _ _ Hread) as [Hb _].
  destruct b.
  - destruct (round env s1) as [[] s2|e s2]; [apply IH|discriminate].
  - intros [= <-]. rewrite running_log. split; [exact Hb|].
    rewrite log_callback_log, console_log. intros ->. now eexists.
Qed.

(** X12.  [run_bot] never changes the targets, the interval, the thread
    or the callback, whether it returns or raises; and when no callback is
    installed it logs nothing. *)
Theorem run_bot_keeps_config (fuel : nat) :
  forall s o, run_bot env fuel s = Some o -> same_config s (final_state o).
Proof.
  induction fuel as [|fuel IH]; intros s o; cbn [run_bot]; [discriminate|].
  destruct (read_running_frame s) as (b & s1 & Hread & Hc1 & _).
  rewrite Hread. destruct b.
  - pose proof (round_config s1) as Hc2.
    destruct (round env s1) as [[] s2|e s2]; cbn [final_state] in Hc2.
    + intros Hrun. apply IH in Hrun.
      exact (same_config_trans _ _ _ Hc1 (same_config_trans _ _ _ Hc2 Hrun)).
    + intros [= <-]. exact (same_config_trans _ _ _ Hc1 Hc2).
  - intros [= <-]. cbn [final_state].
    refine (same_config_trans _ _ _ Hc1 _). frame.
Qed.

(** X13.  With no stop, the sleep between two rounds lasts 60 seconds for
    each minute of the interval; an interval of zero or less gives no sleep
    at all, and not even a read of the flag. *)
Theorem quiet_sleep_lasts_interval (s : state) :
  (running s = true ->
   (forall i, (i < Z.to_nat (interval s * 6))%nat ->
              stop_request env (reads s + i) = false) ->
   exists s', sleep_interval env s = Returns tt s'
     /\ slept s' = slept s + 60 * Z.max 0 (interval s)
     /\ running s' = true)
  /\ (interval s <= 0 -> sleep_interval env s = Returns tt s).
Proof.
  split.
  - intros Hrun Hquiet. unfold sleep_interval, bind, gets.
    rewrite <- (Nat.add_0_r (Z.to_nat (interval s * 6))).
    rewrite (sleep_loop_quiet env _ 0 s Hrun Hquiet).
    eexists. split; [reflexivity|]. unfold after_slices.
    cbn [slept running set_slept set_reads]. split; [|exact Hrun]. lia.
  - intros Hle. unfold sleep_interval, bind, gets.
    replace (Z.to_nat (interval s * 6)) with 0%nat by lia. reflexivity.
Qed.

End MoreCycle.

Lemma run_bot_returns_stopped_witness :
  exists s',
    run_bot (Sample.web 3) 5 (start (Sample.idle Missing))
    = Some (Returns tt s')
    /\ running s' = false.
Proof.
  destruct (run_bot (Sample.web 3) 5 (start (Sample.idle Missing)))
    as [[[] s'|e s']|] eqn:Hrun; try (vm_compute in Hrun; discriminate).
  exists s'. split; [reflexivity|].
  exact (proj1 (run_bot_returns_stopped (Sample.web 3) 5 _ _ Hrun)).
Defined.

Lemma run_bot_keeps_config_witness :
  exists o,
    run_bot (Sample.web 99) 7 (start (Sample.idle Denied)) = Some o
    /\ sites (final_state o) = Sample.targets
    /\ interval (final_state o) = 1.
Proof.
  destruct (run_bot (Sample.web 99) 7 (start (Sample.idle Denied)))
    as [o|] eqn:Hrun; [|vm_compute in Hrun; discriminate].
  exists o. split; [reflexivity|].
  destruct (run_bot_keeps_config (Sample.web 99) 7 _ _ Hrun)
    as (Hsites & Hinterval & _).
  split; [exact Hsites|exact Hinterval].
Defined.

Lemma quiet_sleep_lasts_interval_witness :
  (exists s',
     sleep_interval (Sample.web 99) (start (Sample.idle Missing))
     = Returns tt s'
     /\ slept s' = 60)
  /\ sleep_interval (Sample.web 0)
       (set_interval (-5) (start (Sample.idle Missing)))
     = Returns tt (set_interval (-5) (start (Sample.idle Missing))).
Proof.
  split.
  - destruct (quiet_sleep_lasts_interval (Sample.web 99)
                (start (Sample.idle Missing))) as [H _].
    destruct H as (s' & Hret & Hslept & _).
    + reflexivity.
    + intros i Hi. cbn in Hi. cbn. apply Nat.eqb_neq. lia.
    + exists s'. split; [exact Hret|]. rewrite Hslept. reflexivity.
  - apply (quiet_sleep_lasts_interval (Sample.web 0)
             (set_interval (-5) (start (Sample.idle Missing)))).
    cbn. lia.
Defined.

Section StoppedRound.

Variable env : Env.

Lemma persist_returns (s : state) :
  readable (disk s) = true ->
  write_fault env (writes s) = None ->
  exists s', persist env s = Returns tt s'.
Proof.
  intros Hfile Hwrite. destruct (data s) as [|o records] eqn:Hdata.
  - unfold persist, bind, gets. rewrite Hdata. now eexists.
  - rewrite persist_nonempty by (rewrite Hdata; discriminate).
    destruct (disk s) as [| | |d|t] eqn:Hdisk; try discriminate.
    + rewrite (save_data_missing env s Hdisk Hwrite). now eexists.
    + rewrite (save_data_csv env s t Hdisk Hwrite). now eexists.
Qed.


End StoppedRound.


(** ** Start and stop: further properties *)

(** X15.  [stop()] followed by [start()] on a running bot leaves the
    running flag set and starts one more thread on [run_bot], with the
    targets, the interval and the buffer as they were: nothing waits for
    the first cycle to see the stop. *)
Theorem restart_starts_another_thread (s : state) :
  running s = true ->
  running (start (stop s)) = true
  /\ thread (start (stop s)) = S (thread s)
  /\ sites (start (stop s)) = sites s
  /\ interval (start (stop s)) = interval s
  /\ data (start (stop s)) = data s.
Proof.
  intros Hrun. unfold stop. rewrite Hrun. unfold start.
  rewrite running_log. cbn [running set_running negb].
  repeat split; state_fields.
Qed.

Lemma restart_starts_another_thread_witness :
  let s := start (Sample.idle Missing) in
  running (start (stop s)) = true /\ thread (start (stop s)) = 2%nat.
Proof.
  intros s.
  destruct (restart_starts_another_thread s eq_refl) as (Hrun & Hthread & _).
  split; [exact Hrun|exact Hthread].
Defined.

(** ** The front end *)

Lemma take_token_spec (s : string) :
  forall tok rest, Ui.take_token s = (tok, rest) ->
  Soup.all_chars (fun c => negb (Py.is_space c)) tok = true
  /\ (s <> "" -> starts_with_space s = false -> tok <> "").
Proof.
  induction s as [|c s IH]; intros tok rest; cbn [Ui.take_token].
  - intros [= <- <-]. split; [reflexivity|]. intros H. contradiction.
  - destruct (Py.is_space c) eqn:Hc.
    + intros [= <- <-]. split; [reflexivity|].
      cbn [starts_with_space]. congruence.
    + destruct (Ui.take_token s) as [tok' rest'] eqn:Htok.
      intros [= <- <-]. destruct (IH tok' rest' eq_refl) as [Hall _].
      split; [|discriminate].
      cbn [Soup.all_chars]. now rewrite Hc, Hall.
Qed.

Lemma strip_truthy_lstrip (line : string) :
  Py.truthy (Py.strip line) = true -> Py.lstrip line <> "".
Proof.
  unfold Py.truthy, Py.strip. intros H Hempty.
  rewrite Hempty in H. discriminate.
Qed.

Lemma split_maxsplit1_spec (line : string) :
  Py.lstrip line <> "" ->
  exists u more,
    Ui.split_maxsplit1 line = u :: more
    /\ Ui.well_formed (u, match more with
                          | selector :: _ => Some selector
                          | [] => None
                          end).
Proof.
  intros Hne. unfold Ui.split_maxsplit1.
  pose proof (lstrip_start line) as Hstart.
  destruct (Py.lstrip line) as [|c body] eqn:Hbody; [contradiction|].
  destruct (Ui.take_token (String c body)) as [tok rest] eqn:Htok.
  destruct (take_token_spec _ _ _ Htok) as [Hall Htokne].
  specialize (Htokne Hne Hstart).
  pose proof (lstrip_start rest) as Hrest.
  destruct (Py.lstrip rest) as [|d rest'] eqn:Hr.
  - exists tok, []. split; [reflexivity|].
    unfold Ui.well_formed. cbn [fst snd]. now repeat split.
  - exists tok, [String d rest']. split; [reflexivity|].
    unfold Ui.well_formed. cbn [fst snd]. repeat split; auto.
    discriminate.
Qed.

Lemma parse_lines_some (lines : list string) :
  exists targets, Ui.parse_lines lines = Some targets.
Proof.
  induction lines as [|line rest [targets Hparse]]; [now exists []|].
  cbn [Ui.parse_lines].
  destruct (Py.truthy (Py.strip line)) eqn:Hline; cbn [negb];
    [|now exists targets].
  destruct (split_maxsplit1_spec line (strip_truthy_lstrip _ Hline))
    as (u & more & Hsplit & _).
  rewrite Hsplit, Hparse. now eexists.
Qed.

Lemma append_empty (s : string) : s ++ "" = s.
Proof. induction s as [|c s IH]; cbn [append]; congruence. Qed.

Lemma lstrip_split (s : string) :
  exists lead, Soup.all_chars Py.is_space lead = true
               /\ s = lead ++ Py.lstrip s.
Proof.
  induction s as [|c s (lead & Hlead & Hs)]; [now exists ""|].
  cbn [Py.lstrip]. destruct (Py.is_space c) eqn:Hc.
  - exists (String c lead). cbn [Soup.all_chars append].
    rewrite Hc, Hlead. split; [reflexivity|]. now rewrite <- Hs.
  - now exists "".
Qed.

Lemma take_token_app (s : string) :
  forall tok rest, Ui.take_token s = (tok, rest) ->
  s = tok ++ rest /\ (rest = "" \/ starts_with_space rest = true).
Proof.
  induction s as [|c s IH]; intros tok rest; cbn [Ui.take_token].
  - intros [= <- <-]. split; [reflexivity|now left].
  - destruct (Py.is_space c) eqn:Hc.
    + intros [= <- <-]. split; [reflexivity|]. right. exact Hc.
    + destruct (Ui.take_token s) as [tok' rest'] eqn:Htok.
      intros [= <- <-]. destruct (IH tok' rest' eq_refl) as [Hs Hrest].
      split; [|exact Hrest]. cbn [append]. now rewrite <- Hs.
Qed.

Lemma split_maxsplit1_reads (line : string) :
  Py.lstrip line <> "" ->
  exists u more,
    Ui.split_maxsplit1 line = u :: more
    /\ Ui.reads_as line (u, match more with
                            | selector :: _ => Some selector
                            | [] => None
                            end).
Proof.
  intros Hne. unfold Ui.split_maxsplit1.
  destruct (lstrip_split line) as (lead & Hlead & Hline).
  destruct (Py.lstrip line) as [|c body] eqn:Hbody; [contradiction|].
  destruct (Ui.take_token (String c body)) as [tok rest] eqn:Htok.
  destruct (take_token_app _ _ _ Htok) as [Happ Hrest].
  destruct (lstrip_split rest) as (gap & Hgap & Hsplit).
  pose proof (lstrip_start rest) as Hstart.
  destruct (Py.lstrip rest) as [|d rest'] eqn:Hr.
  - exists tok, []. split; [reflexivity|].
    exists lead, gap. cbn [fst snd]. repeat split; auto.
    rewrite Hline, Happ, Hsplit. now rewrite append_empty.
  - exists tok, [String d rest']. split; [reflexivity|].
    exists lead, gap. cbn [fst snd]. repeat split; auto.
    + intros ->. cbn [append] in Hsplit. rewrite Hsplit in Hrest.
      destruct Hrest as [Hrest|Hrest]; [discriminate|]. congruence.
    + now rewrite Hline, Happ, Hsplit.
Qed.

(** X16.  The loop that reads the text box never fails.  Blank lines are
    skipped and every other line gives one target, the targets in the order
    of their lines.  The line of a target is some whitespace, the url, and
    then either whitespace to its end, when the target has no selector, or
    some whitespace and the selector; the url is a non-empty word without
    whitespace, and a selector is not empty and starts with no
    whitespace. *)
Theorem parse_lines_well_formed (lines : list string) :
  exists targets,
    Ui.parse_lines lines = Some targets
    /\ Forall2 Ui.reads_as
         (filter (fun line => Py.truthy (Py.strip line)) lines) targets
    /\ Forall Ui.well_formed targets
    /\ List.length targets
       = List.length
           (filter (fun line => Py.truthy (Py.strip line)) lines).
Proof.
  induction lines as [|line rest (targets & Hparse & Hreads & Hwf & Hlen)].
  - exists []. repeat split; constructor.
  - cbn [Ui.parse_lines filter].
    destruct (Py.truthy (Py.strip line)) eqn:Hline; cbn [negb].
    + destruct (split_maxsplit1_spec line (strip_truthy_lstrip _ Hline))
        as (u & more & Hsplit & Hu).
      destruct (split_maxsplit1_reads line (strip_truthy_lstrip _ Hline))
        as (u' & more' & Hsplit' & Hu').
      rewrite Hsplit in Hsplit'. injection Hsplit' as <- <-.
      rewrite Hsplit, Hparse. eexists. split; [reflexivity|].
      split; [now constructor|].
      split; [now constructor|]. cbn [List.length]. now rewrite Hlen.
    + exists targets. now repeat split.
Qed.

(** X17.  With a text box that holds only whitespace, or an interval that
    [int] rejects or that is not positive, [start_bot] shows one warning
    and does nothing else: the bot and the buttons are as before. *)
Theorem start_bot_rejects (int : string -> option Z)
    (url_text interval_var : string) (u : Ui.ui) :
  Py.strip url_text = ""
  \/ int interval_var = None
  \/ (exists n, int interval_var = Some n /\ n <= 0) ->
  exists title message,
    Ui.start_bot int url_text interval_var u
    = Some (Ui.showwarning title message u).
Proof.
  intros Hbad. unfold Ui.start_bot. cbv zeta.
  destruct (Py.truthy (Py.strip url_text)) eqn:Htext; cbn [negb];
    [|now do 2 eexists].
  destruct Hbad as [Hblank|[Hint|(n & Hint & Hn)]].
  - rewrite Hblank in Htext. discriminate.
  - rewrite Hint. now do 2 eexists.
  - rewrite Hint. destruct (Z.leb_spec n 0); [|lia]. now do 2 eexists.
Qed.

(** X18.  With a text box that holds some target and an interval that
    [int] reads as a positive number, [start_bot] gives the bot the parsed
    targets and the interval and leaves it running, with the start button
    disabled and the stop button enabled.  It starts a thread only when the
    bot was idle; on a running bot it still replaces the targets and the
    interval that the running cycle reads. *)
Theorem start_bot_accepts (int : string -> option Z)
    (url_text interval_var : string) (u : Ui.ui) (n : Z) :
  Py.strip url_text <> "" ->
  int interval_var = Some n ->
  0 < n ->
  exists targets u',
    Ui.parse_lines (Ui.splitlines (Py.strip url_text)) = Some targets
    /\ Ui.start_bot int url_text interval_var u = Some u'
    /\ sites (Ui.bot u') = targets
    /\ interval (Ui.bot u') = n
    /\ running (Ui.bot u') = true
    /\ thread (Ui.bot u')
       = (if running (Ui.bot u) then thread (Ui.bot u)
          else S (thread (Ui.bot u)))
    /\ Ui.start_button u' = false /\ Ui.stop_button u' = true
    /\ Ui.warnings u' = Ui.warnings u.
Proof.
  intros Htext Hint Hpos. unfold Ui.start_bot. cbv zeta.
  assert (Htruthy : Py.truthy (Py.strip url_text) = true).
  { unfold Py.truthy. destruct (String.eqb_spec (Py.strip url_text) "");
      [contradiction|reflexivity]. }
  rewrite Htruthy, Hint. cbn [negb].
  destruct (Z.leb_spec n 0); [lia|].
  destruct (parse_lines_some (Ui.splitlines (Py.strip url_text)))
    as (targets & Hparse).
  rewrite Hparse. do 2 eexists. split; [reflexivity|].
  split; [reflexivity|]. cbn [Ui.bot Ui.start_button Ui.stop_button
                                 Ui.warnings].
  unfold start. cbn [running set_interval set_sites].
  destruct (running (Ui.bot u)) eqn:Hrun; cbn [negb];
    repeat split; state_fields.
Qed.

Lemma start_bot_rejects_witness :
  let u := Ui.mkUi (Ui.new_bot true Missing) true false [] in
  exists title message,
    Ui.start_bot Ui.plain_int "http://a" "0" u
    = Some (Ui.showwarning title message u).
Proof.
  intros u. apply start_bot_rejects.
  right. right. exists 0. split; [reflexivity|lia].
Defined.

Lemma start_bot_accepts_witness :
  let u := Ui.mkUi (start (Sample.idle Missing)) false true [] in
  exists u',
    Ui.start_bot Ui.plain_int "http://b #cost" "5" u = Some u'
    /\ sites (Ui.bot u') = [("http://b", Some "#cost")]
    /\ interval (Ui.bot u') = 5
    /\ thread (Ui.bot u') = 1%nat.
Proof.
  intros u.
  destruct (start_bot_accepts Ui.plain_int "http://b #cost" "5" u 5)
    as (targets & u' & Hparse & Hstart & Hsites & Hinterval & _ & Hthread
        & _).
  - discriminate.
  - reflexivity.
  - lia.
  - exists u'. split; [exact Hstart|].
    split; [|split; [exact Hinterval|exact Hthread]].
    rewrite Hsites. vm_compute in Hparse. congruence.
Defined.

(** ** A cycle that has died *)

Section DeadCycle.

Variable env : Env.

Lemma scrape_loop_quiet (targets : list Target) :
  forall s, running s = true ->
  (forall i, (i < List.length targets)%nat ->
             stop_request env (reads s + i) = false) ->
  exists s', scrape_loop env targets s = Returns tt s'
    /\ data s' = (data s ++ round_result env (requests s) targets)%list
    /\ running s' = true.
Proof.
  induction targets as [|t rest IH]; intros s Hrun Hquiet.
  - exists s. cbn. rewrite app_nil_r. now repeat split.
  - assert (Hstop : stop_request env (reads s) = false).
    { rewrite <- (Nat.add_0_r (reads s)). apply Hquiet. cbn. lia. }
    rewrite (scrape_loop_step env _ _ _ Hrun Hstop).
    destruct (IH (after_target env t s)) as (s' & Hloop & Hdata & Hrun').
    { now rewrite after_target_running. }
    { intros i Hi. rewrite after_target_reads.
      replace (S (reads s) + i)%nat with (reads s + S i)%nat by lia.
      apply Hquiet. cbn. lia. }
    exists s'. split; [exact Hloop|]. split; [|exact Hrun'].
    rewrite Hdata, after_target_data, after_target_requests.
    cbn [round_result]. now rewrite <- app_assoc.
Qed.

(** X19.  When a round that no stop interrupts has collected something
    and the existing file cannot be opened or parsed, [run_bot] ends with
    the exception and leaves the running flag set: the cycle is gone, yet a
    later [start()] does nothing, and no thread is started until [stop()]
    is called first. *)
Theorem dead_cycle_blocks_start (fuel : nat) (s : state) :
  running s = true ->
  (forall i, (i <= List.length (sites s))%nat ->
             stop_request env (reads s + i) = false) ->
  round_result env (requests s) (sites s) <> [] ->
  disk s = Denied \/ disk s = Blank \/ (exists d, disk s = Garbled d) ->
  exists e s', run_bot env (S fuel) s = Some (Raises e s')
    /\ running s' = true
    /\ thread s' = thread s
    /\ start s' = s'.
Proof.
  intros Hrun Hquiet Hne Hdisk.
  assert (Hq0 : stop_request env (reads s) = false).
  { rewrite <- (Nat.add_0_r (reads s)). apply Hquiet. lia. }
  cbn [run_bot]. rewrite (read_running_quiet env s Hrun Hq0).
  rewrite round_unfold, scrape_all_sites_unfold.
  set (s1 := set_data [] (log "Starting scraping round..."
                            (set_reads (S (reads s)) s))).
  replace (sites (log "Starting scraping round..."
                    (set_reads (S (reads s)) s))) with (sites s)
    by (rewrite sites_log; reflexivity).
  destruct (scrape_loop_quiet (sites s) s1) as (s2 & Hloop & Hdata & Hrun2).
  { subst s1. state_fields. }
  { intros i Hi. replace (reads s1) with (S (reads s))
      by (subst s1; state_fields).
    replace (S (reads s) + i)%nat with (reads s + S i)%nat by lia.
    apply Hquiet. lia. }
  destruct (scrape_loop_frame env (sites s) s1)
    as (s2' & Hloop' & (_ & _ & Hthread & _) & Hdisk2 & _).
  rewrite Hloop in Hloop'. injection Hloop' as <-. rewrite Hloop.
  assert (Hdata2 : data s2 <> []).
  { rewrite Hdata. subst s1. cbn [data set_data app].
    replace (requests _) with (requests s) by state_fields.
    exact Hne. }
  rewrite (persist_nonempty env s2 Hdata2).
  assert (Hdisk' : disk s2 = disk s)
    by (rewrite Hdisk2; subst s1; state_fields).
  assert (Hraise : exists e, save_data env s2 = Raises e s2).
  { unfold save_data, bind, gets, try_except, read_csv. rewrite Hdisk'.
    destruct Hdisk as [H|[H|[d H]]]; rewrite H;
      cbn [is_FileNotFoundError]; now eexists. }
  destruct Hraise as [e Hraise]. rewrite Hraise.
  exists e, s2. split; [reflexivity|]. split; [exact Hrun2|]. split.
  - rewrite Hthread. subst s1. state_fields.
  - now apply start_running.
Qed.

End DeadCycle.

Lemma dead_cycle_blocks_start_witness :
  exists e s',
    run_bot (Sample.web 99) 3 (start (Sample.idle Denied))
    = Some (Raises e s')
    /\ running s' = true /\ start s' = s'.
Proof.
  destruct (dead_cycle_blocks_start (Sample.web 99) 2
              (start (Sample.idle Denied)))
    as (e & s' & Hrun & Hflag & _ & Hstart).
  - reflexivity.
  - intros i Hi. cbn in Hi. cbn. apply Nat.eqb_neq. lia.
  - vm_compute. discriminate.
  - left. reflexivity.
  - exists e, s'. split; [exact Hrun|]. split; [exact Hflag|exact Hstart].
Defined.
